(** * Fredo: the fuzzy-search ranking engine and its snippet store

    A shallow embedding of [fredo/core/models.py], [fredo/core/database.py]
    and [fredo/core/search.py], followed by the properties of the scoring
    function, of the ranking engine and of the store's tag filter.

    Conventions of the embedding.
    - A Python [str] is a [string]; a character stands for the code point of
      the same number, so the model covers text over the code points below
      256.
    - A Python [int] is a [Z]; [Optional[...]] is [option].
    - [int (x * 0.9)], [int (x * 1.1)] and [int (x * 0.5)] are taken on the
      exact products [9x/10], [11x/10] and [x/2], truncated towards zero as
      [int] does; [PyFloatFacts] checks them against the binary64 products
      on the values that scores take.
    - The table [snippets] is the list of its rows in insertion order. *)

From Stdlib Require Import ZArith List String Ascii Bool Lia.
From Stdlib Require Import Sorting.Sorted Sorting.Permutation.
From Stdlib Require Floats Uint63.
Import ListNotations.

Local Open Scope string_scope.
Local Open Scope list_scope.
Local Open Scope Z_scope.

(** ** Python built-ins used by the sources *)

Module Py.

(** [if x:] on an [Optional[str]]: [None] and the empty string are false. *)
Definition truthy_str (x : option string) : bool :=
  match x with
  | None => false
  | Some s => negb (s =? EmptyString)%string
  end.

(** [if x:] on an [Optional[int]]: [None] and [0] are false. *)
Definition truthy_int (x : option Z) : bool :=
  match x with
  | None => false
  | Some n => negb (n =? 0)
  end.

(** [if x:] on an [Optional[List[...]]]: [None] and [[]] are false. *)
Definition truthy_list {A : Type} (x : option (list A)) : bool :=
  match x with
  | None | Some [] => false
  | Some (_ :: _) => true
  end.

(** [c.lower()] on one code point below 256: the ASCII capitals and the
    Latin-1 capitals (U+00C0..U+00DE without the multiplication sign). *)
Definition lower_char (c : ascii) : ascii :=
  let n := nat_of_ascii c in
  if ((65 <=? n) && (n <=? 90))%nat
     || ((192 <=? n) && (n <=? 222) && negb (n =? 215))%nat
  then ascii_of_nat (n + 32)
  else c.

(** [s.lower()]. *)
Fixpoint lower (s : string) : string :=
  match s with
  | EmptyString => EmptyString
  | String c t => String (lower_char c) (lower t)
  end.

(** [needle in hay] on strings. *)
Fixpoint contains (needle hay : string) : bool :=
  prefix needle hay
  || match hay with
     | EmptyString => false
     | String _ t => contains needle t
     end.

(** [hay.count(needle)]: occurrences that do not overlap, found from the
    left; [skip] characters of the last occurrence are still to be passed.
    The empty needle occurs once before each character and once at the
    end. *)
Fixpoint count_from (needle : string) (skip : nat) (hay : string) : Z :=
  match hay with
  | EmptyString => if prefix needle EmptyString then 1 else 0
  | String _ t =>
      match skip with
      | S k => count_from needle k t
      | O =>
          if prefix needle hay
          then 1 + count_from needle (Nat.pred (String.length needle)) t
          else count_from needle 0 t
      end
  end.

Definition count (hay needle : string) : Z := count_from needle 0 hay.

(** [s[:n]] on a string, for a literal [n >= 0]. *)
Definition str_slice_to (s : string) (n : nat) : string := substring 0 n s.

(** [l[:n]] on a list: the first [n] elements, and for a negative [n] all
    but the last [-n]. *)
Definition slice_to {A : Type} (l : list A) (n : Z) : list A :=
  if 0 <=? n
  then firstn (Z.to_nat n) l
  else firstn (List.length l - Z.to_nat (- n))%nat l.

(** [int (x * 0.9)], [int (x * 1.1)], [int (x * 0.5)] on an [int] [x]. *)
Definition int_times_0_9 (x : Z) : Z := Z.quot (x * 9) 10.
Definition int_times_1_1 (x : Z) : Z := Z.quot (x * 11) 10.
Definition int_times_0_5 (x : Z) : Z := Z.quot x 2.

(** [sum] of a list of [bool], each counting for 1. *)
Definition sum_bools (l : list bool) : Z :=
  fold_right (fun (b : bool) (acc : Z) => (if b then 1 else 0) + acc) 0 l.

(** [l.sort(key=..., reverse=True)]: a stable sort, descending.  [lt x y]
    says that the key of [x] is strictly below the key of [y]; equal keys
    keep the order they had in the list. *)
Section Sort.
Context {A : Type} (lt : A -> A -> bool).

Fixpoint insert_desc (x : A) (l : list A) : list A :=
  match l with
  | [] => [x]
  | y :: ys => if lt x y then y :: insert_desc x ys else x :: l
  end.

Definition sort_desc (l : list A) : list A :=
  fold_right insert_desc [] l.
End Sort.

End Py.

(** ** The float products of the scoring function *)

(** [int (x * c)] as Python computes it, on binary64 floats: the integer is
    converted, multiplied by the constant nearest to the literal, and the
    product truncated towards zero. *)
Module PyFloat.

Import PrimFloat.

Definition literal_0_9 : float := 0x1.ccccccccccccdp-1%float.
Definition literal_1_1 : float := 0x1.199999999999ap+0%float.
Definition literal_0_5 : float := 0x1p-1%float.

Definition int_of_product (x : Z) (c : float) : Z :=
  match FloatOps.Prim2SF (mul (of_uint63 (Uint63.of_Z x)) c) with
  | SpecFloat.S754_finite negative m e =>
      let magnitude :=
        if e <? 0 then Z.shiftr (Zpos m) (- e) else Z.shiftl (Zpos m) e in
      if negative then - magnitude else magnitude
  | _ => 0
  end.

(** The float product and the exact product agree on [0..n-1]. *)
Definition agree_below (c : float) (exact : Z -> Z) (n : nat) : bool :=
  forallb
    (fun k => int_of_product (Z.of_nat k) c =? exact (Z.of_nat k))
    (seq 0 n).

End PyFloat.

(** ** [thefuzz.fuzz]: the similarity primitives *)

(** The scoring function calls two functions of a third-party library.  The
    general results hold for every implementation of this interface. *)
Class Fuzz : Type := {
  ratio : string -> string -> Z;
  partial_ratio : string -> string -> Z
}.

(** Both primitives return a percentage. *)
Class FuzzRange (F : Fuzz) : Prop := {
  ratio_range : forall a b, 0 <= ratio a b <= 100;
  partial_ratio_range : forall a b, 0 <= partial_ratio a b <= 100
}.

(** A reference implementation after the library's documentation, used to
    run the code on concrete inputs: [ratio] is the normalised Indel
    similarity [200 * lcs / (|a| + |b|)], rounded as Python's [round] does;
    [partial_ratio] is the best [ratio] of the shorter string against the
    windows of the longer one. *)
Module TheFuzz.

Fixpoint lcs (a b : string) : nat :=
  match a with
  | EmptyString => 0%nat
  | String x a' =>
      (fix inner (b : string) : nat :=
         match b with
         | EmptyString => 0%nat
         | String y b' =>
             if (x =? y)%char then S (lcs a' b')
             else Nat.max (lcs a' b) (inner b')
         end) b
  end.

(** [int (round (p / q))] for [p >= 0], [q > 0]: halves go to the even
    neighbour. *)
Definition round_div (p q : Z) : Z :=
  let d := p / q in
  let r := p mod q in
  if 2 * r <? q then d
  else if q <? 2 * r then d + 1
  else if Z.even d then d else d + 1.

Definition indel_ratio (a b : string) : Z :=
  let n := Z.of_nat (String.length a + String.length b) in
  if n =? 0 then 100
  else round_div (200 * Z.of_nat (lcs a b)) n.

(** The windows of [long] for a pattern of [m] characters: the proper
    prefixes shorter than [m], every block of [m] characters, and the
    suffixes shorter than [m]. *)
Fixpoint suffixes (s : string) : list string :=
  match s with
  | EmptyString => []
  | String _ t => s :: suffixes t
  end.

Definition windows (m : nat) (long : string) : list string :=
  map (fun i => substring 0 i long) (seq 1 (m - 1)%nat)
  ++ map (substring 0 m) (suffixes long).

Definition best (short long : string) : Z :=
  fold_right Z.max 0
    (map (indel_ratio short) (windows (String.length short) long)).

Definition window_ratio (a b : string) : Z :=
  match a, b with
  | EmptyString, EmptyString => 100
  | EmptyString, _ | _, EmptyString => 0
  | _, _ =>
      match Nat.compare (String.length a) (String.length b) with
      | Lt => best a b
      | Gt => best b a
      | Eq => Z.max (best a b) (best b a)
      end
  end.

End TheFuzz.

#[global] Instance thefuzz : Fuzz := {|
  ratio := TheFuzz.indel_ratio;
  partial_ratio := TheFuzz.window_ratio
|}.

(** ** [fredo/core/models.py] *)

Module Models.

(** [class Snippet]; the two timestamps are kept as the ISO texts that
    [to_db_dict] stores. *)
Record Snippet : Type := {
  id : string;
  name : string;
  content : string;
  language : string;
  tags : list string;
  execution_mode : string;
  gist_id : option string;
  gist_url : option string;
  created_at : string;
  updated_at : string
}.

End Models.

(** ** [fredo/core/database.py] *)

Module Database.

(** The rows of the table [snippets], in insertion order.  A row holds the
    snippet that [from_db_dict] rebuilds from it. *)
Definition Table : Type := list Models.Snippet.

(** *** [json.dumps] on a list of strings, as [to_db_dict] calls it *)

(** The double quote, as a string of one character. *)
Definition dquote : string := String "034"%char EmptyString.

Definition hex_digit (n : nat) : ascii :=
  nth n (list_ascii_of_string "0123456789abcdef") "0"%char.

(** One character of a JSON string with [ensure_ascii]: the quote, the
    backslash and everything outside [' '..'~'] are escaped. *)
Definition json_escape (c : ascii) : string :=
  let n := nat_of_ascii c in
  if (n =? 34)%nat then "\" ++ dquote
  else if (n =? 92)%nat then "\\"
  else if (n =? 10)%nat then "\n"
  else if (n =? 13)%nat then "\r"
  else if (n =? 9)%nat then "\t"
  else if (n =? 8)%nat then "\b"
  else if (n =? 12)%nat then "\f"
  else if ((n <? 32) || (126 <? n))%nat
  then "\u00"
       ++ String (hex_digit (n / 16))
            (String (hex_digit (n mod 16)) EmptyString)
  else String c EmptyString.

Fixpoint json_escape_all (s : string) : string :=
  match s with
  | EmptyString => EmptyString
  | String c t => json_escape c ++ json_escape_all t
  end.

Definition json_string (s : string) : string :=
  dquote ++ json_escape_all s ++ dquote.

Definition json_dumps (l : list string) : string :=
  "[" ++ String.concat ", " (map json_string l) ++ "]".

(** *** The SQL operator [LIKE] of SQLite *)

(** SQLite folds the case of the ASCII letters only. *)
Definition ascii_fold (c : ascii) : ascii :=
  let n := nat_of_ascii c in
  if ((65 <=? n) && (n <=? 90))%nat then ascii_of_nat (n + 32) else c.

(** [text LIKE pattern]: [%] stands for any run of characters, [_] for one
    character, every other character for itself up to ASCII case. *)
Fixpoint like (pattern text : string) : bool :=
  match pattern with
  | EmptyString =>
      match text with
      | EmptyString => true
      | String _ _ => false
      end
  | String p pattern' =>
      if (p =? "%")%char then
        (fix any (text : string) : bool :=
           like pattern' text
           || match text with
              | EmptyString => false
              | String _ text' => any text'
              end) text
      else
        match text with
        | EmptyString => false
        | String c text' =>
            ((p =? "_")%char || (ascii_fold p =? ascii_fold c)%char)
            && like pattern' text'
        end
  end.

(** [ORDER BY updated_at DESC]; rows with equal texts keep their order. *)
Definition order_by_updated_at_desc (rows : list Models.Snippet)
  : list Models.Snippet :=
  Py.sort_desc
    (fun x y => String.ltb (Models.updated_at x) (Models.updated_at y)) rows.

(** [Database.search]: every given filter adds one condition, the
    conditions are joined with [AND], the tag patterns with [OR]. *)
Definition search (rows : Table) (query language : option string)
    (tags : option (list string)) : list Models.Snippet :=
  let query_conditions : list (Models.Snippet -> bool) :=
    match query with
    | Some q =>
        if Py.truthy_str query
        then [fun row =>
                like ("%" ++ q ++ "%") (Models.name row)
                || like ("%" ++ q ++ "%") (Models.content row)]
        else []
    | None => []
    end in
  let language_conditions : list (Models.Snippet -> bool) :=
    match language with
    | Some l =>
        if Py.truthy_str language
        then [fun row => (Models.language row =? l)%string]
        else []
    | None => []
    end in
  let tag_conditions : list (Models.Snippet -> bool) :=
    match tags with
    | Some (t :: ts) =>
        [fun row =>
           existsb
             (fun tag =>
                like ("%" ++ dquote ++ tag ++ dquote ++ "%")
                     (json_dumps (Models.tags row)))
             (t :: ts)]
    | _ => []
    end in
  let conditions :=
    query_conditions ++ language_conditions ++ tag_conditions in
  order_by_updated_at_desc
    (filter (fun row => forallb (fun c => c row) conditions) rows).

End Database.

(** ** [fredo/core/search.py] *)

Record SearchResult : Type := {
  snippet : Models.Snippet;
  score : Z
}.

(** The order of a ranked list: no result scores above the one before. *)
Definition by_score_desc (x y : SearchResult) : Prop :=
  score y <= score x.

Module SearchEngine.

Section Scoring.
Context {F : Fuzz}.

(** The body of the loop over [snippet.tags]: what one tag adds. *)
Definition tag_points (query_lower tag : string) : Z :=
  if Py.contains query_lower (Py.lower tag) then 70
  else if 80 <? ratio query_lower (Py.lower tag) then 50
  else 0.

Definition tag_score (query_lower : string) (tags : list string) : Z :=
  fold_left (fun acc tag => acc + tag_points query_lower tag) tags 0.

Definition content_score (query_lower content : string) : Z :=
  let content_lower := Py.lower content in
  if Py.contains query_lower content_lower
  then
    let occurrences := Py.count content_lower query_lower in
    Z.min 50 (20 + occurrences * 5)
  else
    let content_preview := Py.str_slice_to content_lower 500 in
    let content_fuzzy := partial_ratio query_lower content_preview in
    Py.int_times_0_5 content_fuzzy.

(** What the function returns once both short cuts have been passed. *)
Definition combine (name_score tag_score content_score : Z) : Z :=
  let total_score :=
    Z.max (Z.max (Py.int_times_0_9 name_score) tag_score) content_score in
  let match_types :=
    Py.sum_bools
      [60 <? name_score; 0 <? tag_score; 0 <? content_score] in
  if 1 <? match_types
  then Z.min 100 (Py.int_times_1_1 total_score)
  else total_score.

Definition _calculate_score (query : string) (snippet : Models.Snippet)
  : Z :=
  let query_lower := Py.lower query in
  let name_lower := Py.lower (Models.name snippet) in
  if (query_lower =? name_lower)%string then 100
  else if Py.contains query_lower name_lower then 95
  else
    let name_score := ratio query_lower name_lower in
    combine name_score
            (tag_score query_lower (Models.tags snippet))
            (content_score query_lower (Models.content snippet)).

(** [if limit: results = results[:limit]]. *)
Definition apply_limit (results : list SearchResult) (limit : option Z)
  : list SearchResult :=
  match limit with
  | Some n => if Py.truthy_int limit then Py.slice_to results n else results
  | None => results
  end.

Definition score_all (query : string) (snippets : list Models.Snippet)
  : list SearchResult :=
  filter (fun r => 0 <? score r)
    (map (fun s => Build_SearchResult s (_calculate_score query s))
         snippets).

Definition sort_results (results : list SearchResult)
  : list SearchResult :=
  Py.sort_desc (fun x y => score x <? score y) results.

Definition search (db : Database.Table) (query language : option string)
    (tags : option (list string)) (limit : option Z)
  : list SearchResult :=
  let snippets := Database.search db None language tags in
  match query with
  | Some q =>
      if Py.truthy_str query
      then apply_limit (sort_results (score_all q snippets)) limit
      else apply_limit (map (fun s => Build_SearchResult s 100) snippets)
                       limit
  | None =>
      apply_limit (map (fun s => Build_SearchResult s 100) snippets)
                  limit
  end.

(** How a call of [search] ends.  Its body holds no [raise], and slicing
    accepts every integer, so every call returns. *)
Inductive outcome (A : Type) : Type :=
| Returns (value : A)
| Raises (exception message : string).


End Scoring.

End SearchEngine.

(** ** The scoring policy in the specification's words *)

Module Spec.

Section Scoring.
Context {F : Fuzz}.

(** Step 3 of the policy: the name fuzzy score is the ratio weighted by
    0.9 and floored; the boost counts the signals [nameFuzzy > 60],
    [tagScore > 0], [contentScore > 0]. *)
Definition combine (ratio_name tag_score content_score : Z) : Z :=
  let name_fuzzy := (ratio_name * 9) / 10 in
  let total := Z.max (Z.max name_fuzzy tag_score) content_score in
  let signals :=
    Py.sum_bools
      [60 <? name_fuzzy; 0 <? tag_score; 0 <? content_score] in
  if 1 <? signals then Z.min 100 ((total * 11) / 10) else total.

Definition calculate_score (query : string) (snippet : Models.Snippet)
  : Z :=
  let query_lower := Py.lower query in
  let name_lower := Py.lower (Models.name snippet) in
  if (query_lower =? name_lower)%string then 100
  else if Py.contains query_lower name_lower then 95
  else
    combine (ratio query_lower name_lower)
            (SearchEngine.tag_score query_lower (Models.tags snippet))
            (SearchEngine.content_score query_lower
               (Models.content snippet)).
End Scoring.

End Spec.

(** ** Tags that are stored as they are written *)

Module TagText.



(** The pattern that [Database.search] builds for one tag of the
    filter. *)
Definition pattern (tag : string) : string :=
  "%" ++ Database.dquote ++ tag ++ Database.dquote ++ "%".

End TagText.

(** ** Snippets and stores used as concrete inputs *)

Module Examples.

(** [Snippet(name=..., content=..., tags=...)] with the defaults of the
    model; the identifier and the timestamps are given. *)
Definition make (ident name content : string) (tags : list string)
    (stamp : string) : Models.Snippet :=
  {| Models.id := ident;
     Models.name := name;
     Models.content := content;
     Models.language := "auto";
     Models.tags := tags;
     Models.execution_mode := "current";
     Models.gist_id := None;
     Models.gist_url := None;
     Models.created_at := stamp;
     Models.updated_at := stamp |}.

(** Two tags that both contain the query [xy]; nothing else relates to
    it. *)
Definition two_tags : Models.Snippet :=
  make "1" "bbbb" "bbbb" ["xy1"; "xy2"] "2024-01-01T10:00:00".

(** A name with ratio 67 against the query [ab], which its content holds
    once. *)
Definition near_name : Models.Snippet :=
  make "2" "axyb" "ab" [] "2024-01-01T10:00:00".


(** The store of the ranking scenario, oldest row first. *)
Definition docker : Models.Snippet :=
  make "4" "docker" "y" [] "2024-01-01T10:00:00".
Definition docker_compose : Models.Snippet :=
  make "5" "docker-compose" "x" [] "2024-01-02T10:00:00".
Definition deploy_script : Models.Snippet :=
  make "6" "deploy-script" "uses docker heavily" [] "2024-01-03T10:00:00".
Definition docker_store : Database.Table :=
  [docker; docker_compose; deploy_script].

(** The store of the tag scenario. *)
Definition tagged_docker : Models.Snippet :=
  make "7" "cleanup" "prune" ["docker"] "2024-01-01T10:00:00".
Definition tagged_api : Models.Snippet :=
  make "8" "fetch" "get" ["api"] "2024-01-02T10:00:00".
Definition tagged_other : Models.Snippet :=
  make "9" "hello" "print" ["greeting"] "2024-01-03T10:00:00".
Definition tag_store : Database.Table :=
  [tagged_docker; tagged_api; tagged_other].

(** The tag [cafe] with an acute accent on its last letter (U+00E9). *)
Definition cafe : string :=
  String "c" (String "a" (String "f" (String (ascii_of_nat 233) EmptyString))).
Definition tagged_cafe : Models.Snippet :=
  make "10" "espresso" "brew" [cafe] "2024-01-01T10:00:00".

End Examples.

(** * The rest of the code

    The validators of the model, the operations on the table, the choice of
    the language and of the command of a run, the editor command, the text
    that comes back from the editor, and the conversion between snippets
    and Gists. *)

(** ** More Python built-ins: whitespace and dictionaries *)

Module PyText.

(** [c.isspace()] on a code point below 256. *)
Definition isspace_char (c : ascii) : bool :=
  let n := nat_of_ascii c in
  (((9 <=? n) && (n <=? 13)) || ((28 <=? n) && (n <=? 32))
   || (n =? 133) || (n =? 160))%nat.

(** [s.lstrip()], [s.rstrip()] and [s.strip()]. *)
Fixpoint lstrip (s : string) : string :=
  match s with
  | EmptyString => EmptyString
  | String c t => if isspace_char c then lstrip t else s
  end.

Fixpoint rstrip (s : string) : string :=
  match s with
  | EmptyString => EmptyString
  | String c t =>
      match rstrip t with
      | EmptyString =>
          if isspace_char c then EmptyString else String c EmptyString
      | String d t' => String c (String d t')
      end
  end.

Definition strip (s : string) : string := rstrip (lstrip s).

(** [if s:] on a [str]. *)
Definition truthy (s : string) : bool := negb (s =? EmptyString)%string.

(** [d.get(key, default)] on a dictionary of strings written as a literal. *)
Fixpoint dict_get {V : Type} (d : list (string * V)) (key : string)
    (default : V) : V :=
  match d with
  | [] => default
  | (k, v) :: rest => if (k =? key)%string then v else dict_get rest key default
  end.

(** [key in d]. *)
Definition dict_mem {V : Type} (d : list (string * V)) (key : string)
  : bool :=
  existsb (fun kv => (fst kv =? key)%string) d.

End PyText.

(** ** [fredo/core/models.py]: validation and file extensions *)

Module SnippetModel.

(** [Snippet.validate_execution_mode]. *)
Definition validate_execution_mode (v : string)
  : SearchEngine.outcome string :=
  if existsb (fun m => (m =? v)%string) ["current"; "isolated"]
  then SearchEngine.Returns _ v
  else SearchEngine.Raises _ "ValueError"
         "execution_mode must be 'current' or 'isolated'".

(** [Snippet.validate_tags]. *)
Definition validate_tags (v : list string) : list string :=
  map (fun tag => Py.lower (PyText.strip tag))
      (filter (fun tag => PyText.truthy (PyText.strip tag)) v).

(** [Snippet(...)] on given field values: the name has 1 to 255
    characters, the content at least one, the two validators run.  What
    fails is reported as one [ValidationError], whose text is left out. *)
Definition init (fields : Models.Snippet)
  : SearchEngine.outcome Models.Snippet :=
  let name_ok :=
    ((1 <=? String.length (Models.name fields))
     && (String.length (Models.name fields) <=? 255))%nat in
  let content_ok := (1 <=? String.length (Models.content fields))%nat in
  match validate_execution_mode (Models.execution_mode fields) with
  | SearchEngine.Returns _ mode =>
      if name_ok && content_ok
      then
        SearchEngine.Returns _
          {| Models.id := Models.id fields;
             Models.name := Models.name fields;
             Models.content := Models.content fields;
             Models.language := Models.language fields;
             Models.tags := validate_tags (Models.tags fields);
             Models.execution_mode := mode;
             Models.gist_id := Models.gist_id fields;
             Models.gist_url := Models.gist_url fields;
             Models.created_at := Models.created_at fields;
             Models.updated_at := Models.updated_at fields |}
      else SearchEngine.Raises _ "ValidationError" EmptyString
  | SearchEngine.Raises _ _ _ =>
      SearchEngine.Raises _ "ValidationError" EmptyString
  end.

(** [Snippet.from_db_dict]: the columns of a row go through the
    constructor.  The tag list stands for the JSON text of the column and
    the timestamps for their ISO texts. *)
Definition from_db_dict (row : Models.Snippet)
  : SearchEngine.outcome Models.Snippet :=
  init row.

(** [get_file_extension_for_language]. *)
Definition extension_map : list (string * string) :=
  [ ("python", ".py"); ("bash", ".sh"); ("shell", ".sh");
    ("javascript", ".js"); ("typescript", ".ts"); ("ruby", ".rb");
    ("go", ".go"); ("rust", ".rs"); ("java", ".java"); ("c", ".c");
    ("cpp", ".cpp"); ("csharp", ".cs"); ("php", ".php"); ("sql", ".sql");
    ("html", ".html"); ("css", ".css"); ("json", ".json");
    ("yaml", ".yaml"); ("markdown", ".md") ].

Definition get_file_extension_for_language (language : string) : string :=
  PyText.dict_get extension_map (Py.lower language) ".txt".

(** [Snippet.get_file_extension]. *)
Definition get_file_extension (s : Models.Snippet) : string :=
  get_file_extension_for_language (Models.language s).

End SnippetModel.

(** ** [fredo/core/database.py]: the operations on the table *)

(** The database file either has no table [snippets] yet or holds its
    rows.  Every operation returns the file it leaves and how the call
    ends; an exception rolls the statement back. *)
Module DatabaseOps.

Definition File : Type := option Database.Table.

(** [init_db]: [CREATE TABLE IF NOT EXISTS]. *)
Definition init_db (file : File) : Database.Table :=
  match file with
  | Some rows => rows
  | None => []
  end.

(** The list comprehension [[Snippet.from_db_dict(dict(row)) for row in
    rows]]: the first row that fails ends it. *)
Fixpoint from_rows (rows : list Models.Snippet)
  : SearchEngine.outcome (list Models.Snippet) :=
  match rows with
  | [] => SearchEngine.Returns _ []
  | row :: rest =>
      match SnippetModel.from_db_dict row with
      | SearchEngine.Returns _ s =>
          match from_rows rest with
          | SearchEngine.Returns _ l => SearchEngine.Returns _ (s :: l)
          | SearchEngine.Raises _ e m => SearchEngine.Raises _ e m
          end
      | SearchEngine.Raises _ e m => SearchEngine.Raises _ e m
      end
  end.

(** [fetchone] and the conversion of the row, if there is one. *)
Definition from_first (rows : list Models.Snippet)
  : SearchEngine.outcome (option Models.Snippet) :=
  match rows with
  | [] => SearchEngine.Returns _ None
  | row :: _ =>
      match SnippetModel.from_db_dict row with
      | SearchEngine.Returns _ s => SearchEngine.Returns _ (Some s)
      | SearchEngine.Raises _ e m => SearchEngine.Raises _ e m
      end
  end.

Definition has_id (ident : string) (row : Models.Snippet) : bool :=
  (Models.id row =? ident)%string.

Definition has_name (name : string) (row : Models.Snippet) : bool :=
  (Models.name row =? name)%string.

(** [create]: the [INSERT] fails on a row with the same [id] (primary key)
    or the same [name] (unique); the text of SQLite's message is left
    out. *)
Definition create (file : File) (s : Models.Snippet)
  : File * SearchEngine.outcome Models.Snippet :=
  let rows := init_db file in
  if existsb (has_id (Models.id s)) rows
     || existsb (has_name (Models.name s)) rows
  then (Some rows, SearchEngine.Raises _ "IntegrityError" EmptyString)
  else (Some (rows ++ [s]), SearchEngine.Returns _ s).

Definition get_by_id (file : File) (snippet_id : string)
  : File * SearchEngine.outcome (option Models.Snippet) :=
  let rows := init_db file in
  (Some rows, from_first (filter (has_id snippet_id) rows)).

Definition get_by_name (file : File) (name : string)
  : File * SearchEngine.outcome (option Models.Snippet) :=
  let rows := init_db file in
  (Some rows, from_first (filter (has_name name) rows)).

(** The row after [UPDATE ... SET ... WHERE id = ?]: every column but [id]
    and [created_at] is replaced. *)
Definition set_columns (data row : Models.Snippet) : Models.Snippet :=
  {| Models.id := Models.id row;
     Models.name := Models.name data;
     Models.content := Models.content data;
     Models.language := Models.language data;
     Models.tags := Models.tags data;
     Models.execution_mode := Models.execution_mode data;
     Models.gist_id := Models.gist_id data;
     Models.gist_url := Models.gist_url data;
     Models.created_at := Models.created_at row;
     Models.updated_at := Models.updated_at data |}.

(** [snippet.updated_at = datetime.now()], with the clock's reading
    given. *)
Definition touch (s : Models.Snippet) (now : string) : Models.Snippet :=
  {| Models.id := Models.id s;
     Models.name := Models.name s;
     Models.content := Models.content s;
     Models.language := Models.language s;
     Models.tags := Models.tags s;
     Models.execution_mode := Models.execution_mode s;
     Models.gist_id := Models.gist_id s;
     Models.gist_url := Models.gist_url s;
     Models.created_at := Models.created_at s;
     Models.updated_at := now |}.

(** [update]: no [init_db] here, so a file without the table makes SQLite
    raise.  The statement fails when the new name is the name of a row with
    another [id]; a missing [id] changes nothing and is no error. *)
Definition update (file : File) (s : Models.Snippet) (now : string)
  : File * SearchEngine.outcome Models.Snippet :=
  let snippet := touch s now in
  match file with
  | None =>
      (None,
       SearchEngine.Raises _ "OperationalError" "no such table: snippets")
  | Some rows =>
      if existsb (has_id (Models.id snippet)) rows
         && existsb
              (fun row =>
                 negb (has_id (Models.id snippet) row)
                 && has_name (Models.name snippet) row)
              rows
      then (Some rows, SearchEngine.Raises _ "IntegrityError" EmptyString)
      else
        (Some
           (map (fun row =>
                   if has_id (Models.id snippet) row
                   then set_columns snippet row
                   else row)
                rows),
         SearchEngine.Returns _ snippet)
  end.

(** [delete] and [delete_by_name]: [cursor.rowcount > 0]. *)
Definition delete (file : File) (snippet_id : string)
  : File * SearchEngine.outcome bool :=
  match file with
  | None =>
      (None,
       SearchEngine.Raises _ "OperationalError" "no such table: snippets")
  | Some rows =>
      (Some (filter (fun row => negb (has_id snippet_id row)) rows),
       SearchEngine.Returns _
         (0 <? List.length (filter (has_id snippet_id) rows))%nat)
  end.

Definition delete_by_name (file : File) (name : string)
  : File * SearchEngine.outcome bool :=
  match file with
  | None =>
      (None,
       SearchEngine.Raises _ "OperationalError" "no such table: snippets")
  | Some rows =>
      (Some (filter (fun row => negb (has_name name row)) rows),
       SearchEngine.Returns _
         (0 <? List.length (filter (has_name name) rows))%nat)
  end.

Definition list_all (file : File)
  : File * SearchEngine.outcome (list Models.Snippet) :=
  let rows := init_db file in
  (Some rows, from_rows (Database.order_by_updated_at_desc rows)).

(** [Database.search] as a call: [init_db], the selection, the
    conversion of the rows. *)
Definition search (file : File) (query language : option string)
    (tags : option (list string))
  : File * SearchEngine.outcome (list Models.Snippet) :=
  let rows := init_db file in
  (Some rows, from_rows (Database.search rows query language tags)).

(** [tag_counts[tag] = tag_counts.get(tag, 0) + 1] on a dictionary that
    keeps the order in which its keys came. *)
Fixpoint bump (tag : string) (tag_counts : list (string * Z))
  : list (string * Z) :=
  match tag_counts with
  | [] => [(tag, 0 + 1)]
  | (k, n) :: rest =>
      if (k =? tag)%string then (k, n + 1) :: rest
      else (k, n) :: bump tag rest
  end.

(** [get_all_tags]: the rows whose tag text is not ['[]'], their tags
    counted, the pairs sorted by descending count. *)
Definition get_all_tags (file : File)
  : File * SearchEngine.outcome (list (string * Z)) :=
  let rows := init_db file in
  let selected :=
    filter
      (fun row => negb (Database.json_dumps (Models.tags row) =? "[]")%string)
      rows in
  let tag_counts :=
    fold_left
      (fun counts row => fold_left (fun c tag => bump tag c)
                           (Models.tags row) counts)
      selected [] in
  (Some rows,
   SearchEngine.Returns _
     (Py.sort_desc (fun x y => snd x <? snd y) tag_counts)).

End DatabaseOps.

(** ** What the table's constraints and the constructor guarantee *)

Module DbInvariant.

(** [id] is the primary key of the table and [name] is unique. *)
Definition unique_keys (rows : Database.Table) : Prop :=
  NoDup (map Models.id rows) /\ NoDup (map Models.name rows).

(** A snippet as the constructor returns it. *)
Definition validated (s : Models.Snippet) : Prop :=
  SnippetModel.init s = SearchEngine.Returns _ s.

(** A text with its ASCII capitals made small, as [LIKE] compares it. *)
Fixpoint fold_all (s : string) : string :=
  match s with
  | EmptyString => EmptyString
  | String c t => String (Database.ascii_fold c) (fold_all t)
  end.

(** In the order of a listing: [x] is not older than [y]. *)
Definition not_older (x y : Models.Snippet) : Prop :=
  String.ltb (Models.updated_at x) (Models.updated_at y) = false.

(** The dictionary after the tags of some rows have been counted. *)
Record counted (d : list (string * Z)) (seen : list string) : Prop := {
  counted_keys : NoDup (map fst d);
  counted_positive : Forall (fun kv => 0 < snd kv) d;
  counted_get :
    forall k, PyText.dict_get d k 0
              = Z.of_nat (count_occ string_dec seen k)
}.

End DbInvariant.

(** ** More Python built-ins: lines *)

Module PyLines.

(** [s.split(sep)] for a separator of one character. *)
Fixpoint split_char (sep : ascii) (s : string) : list string :=
  match s with
  | EmptyString => [EmptyString]
  | String c t =>
      if (c =? sep)%char then EmptyString :: split_char sep t
      else
        match split_char sep t with
        | piece :: pieces => String c piece :: pieces
        | [] => [String c EmptyString]
        end
  end.

(** The line feed, as a character and as a string. *)
Definition newline_char : ascii := "010"%char.
Definition newline : string := String newline_char EmptyString.

(** [s.split("\n")] and ["\n".join(lines)]. *)
Definition split_lines (s : string) : list string :=
  split_char newline_char s.

Definition join_lines (lines : list string) : string :=
  String.concat newline lines.

(** [s[n:]] on a string. *)
Fixpoint drop (n : nat) (s : string) : string :=
  match n, s with
  | O, _ => s
  | S _, EmptyString => EmptyString
  | S k, String _ t => drop k t
  end.

(** [while lines and test(lines[0]): lines.pop(0)]. *)
Fixpoint pop_while (test : string -> bool) (lines : list string)
  : list string :=
  match lines with
  | [] => []
  | line :: rest => if test line then pop_while test rest else lines
  end.

End PyLines.

(** ** [fredo/core/runner.py]: which language, which command *)

Module SnippetRunner.

(** [EXECUTORS]: the command and the flag [use_file] of each language. *)
Definition EXECUTORS : list (string * (list string * bool)) :=
  [ ("python", (["python3"], true)); ("python3", (["python3"], true));
    ("bash", (["bash"], true)); ("sh", (["sh"], true));
    ("shell", (["bash"], true)); ("javascript", (["node"], true));
    ("js", (["node"], true)); ("typescript", (["ts-node"], true));
    ("ts", (["ts-node"], true)); ("ruby", (["ruby"], true));
    ("rb", (["ruby"], true)); ("go", (["go"; "run"], true));
    ("rust", (["rust-script"], true)); ("php", (["php"], true));
    ("perl", (["perl"], true)); ("lua", (["lua"], true));
    ("r", (["Rscript"], true)) ].

Section Runner.

(** [pygments.lexers.guess_lexer]: the name of the lexer it picks for a
    text, or nothing when it raises [ClassNotFound]. *)
Variable guess_lexer : string -> option string.

(** [shutil.which]: whether the command is found on the path. *)
Variable which : string -> bool.

(** Step 2 of [detect_language]: the interpreter line. *)
Definition by_shebang (content : string) : option string :=
  match PyLines.split_lines (PyText.strip content) with
  | first :: _ =>
      if prefix "#!" first
      then
        let shebang := PyText.strip (PyLines.drop 2 first) in
        if Py.contains "python" shebang then Some "python"
        else if Py.contains "bash" shebang || Py.contains "sh" shebang
             then Some "bash"
        else if Py.contains "node" shebang then Some "javascript"
        else if Py.contains "ruby" shebang then Some "ruby"
        else None
      else None
  | [] => None
  end.

(** Step 3 of [detect_language]: the guess of Pygments. *)
Definition by_lexer (content : string) : string :=
  match guess_lexer content with
  | Some name =>
      let lang_name := Py.lower name in
      if Py.contains "python" lang_name then "python"
      else if Py.contains "bash" lang_name || Py.contains "shell" lang_name
           then "bash"
      else if Py.contains "javascript" lang_name then "javascript"
      else if Py.contains "ruby" lang_name then "ruby"
      else lang_name
  | None => "bash"
  end.

Definition detect_language (snippet : Models.Snippet) : string :=
  if PyText.truthy (Models.language snippet)
     && negb (Py.lower (Models.language snippet) =? "auto")%string
  then Py.lower (Models.language snippet)
  else
    match by_shebang (Models.content snippet) with
    | Some language => language
    | None => by_lexer (Models.content snippet)
    end.

Definition can_execute (language : string) : bool * option string :=
  let language := Py.lower language in
  if negb (PyText.dict_mem EXECUTORS language)
  then (false, Some ("Unsupported language: " ++ language)%string)
  else
    let executor := PyText.dict_get EXECUTORS language ([], true) in
    let cmd := hd EmptyString (fst executor) in
    if negb (which cmd)
    then (false,
          Some ("Command '" ++ cmd
                  ++ "' not found. Please install it first.")%string)
    else (true, None).

End Runner.

End SnippetRunner.

(** ** [fredo/utils/config.py]: the editor to use *)

Module ConfigManager.

(** [x or y] on an optional string and a string. *)
Definition or_else (x : option string) (y : string) : string :=
  match x with
  | Some s => if PyText.truthy s then s else y
  | None => y
  end.

(** [get_editor], for the loaded value of [config.editor] and the
    environment. *)
Definition get_editor (config_editor : option string)
    (environ : string -> option string) : string :=
  match config_editor with
  | Some editor =>
      if PyText.truthy editor then editor
      else or_else (environ "VISUAL") (or_else (environ "EDITOR") "vim")
  | None => or_else (environ "VISUAL") (or_else (environ "EDITOR") "vim")
  end.

End ConfigManager.

(** ** [fredo/utils/editor.py]: editing a text *)

Module EditorManager.

Definition comment_map : list (string * string) :=
  [ (".py", "#"); (".sh", "#"); (".bash", "#"); (".rb", "#"); (".r", "#");
    (".yaml", "#"); (".yml", "#"); (".toml", "#"); (".js", "//");
    (".ts", "//"); (".java", "//"); (".c", "//"); (".cpp", "//");
    (".cs", "//"); (".go", "//"); (".rs", "//"); (".php", "//");
    (".sql", "--"); (".lua", "--"); (".html", "<!--"); (".css", "/*") ].

Definition _get_comment_char (extension : string) : string :=
  PyText.dict_get comment_map (Py.lower extension) "#".

(** The lines written above the content when a message is given. *)
Definition header (extension message : string) : string :=
  (_get_comment_char extension ++ " " ++ message ++ PyLines.newline
   ++ _get_comment_char extension ++ " Delete these lines when done."
   ++ PyLines.newline ++ PyLines.newline)%string.

(** The removal of the message lines from the text read back. *)
Definition remove_header (extension edited_content : string) : string :=
  let lines := PyLines.split_lines edited_content in
  let comment_char := _get_comment_char extension in
  let lines :=
    PyLines.pop_while
      (fun line => prefix comment_char (PyText.strip line)) lines in
  let lines :=
    PyLines.pop_while
      (fun line => negb (PyText.truthy (PyText.strip line))) lines in
  PyLines.join_lines lines.

Section Editor.

(** The editor process on the temporary file: the text it leaves in the
    file that held the given text, or nothing when running it or reading
    the file back raises. *)
Variable run_editor : string -> string -> option string.

Definition edit_content (editor content extension : string)
    (message : option string) : SearchEngine.outcome (option string) :=
  let written :=
    match message with
    | Some m =>
        if PyText.truthy m then (header extension m ++ content)%string
        else content
    | None => content
    end in
  match run_editor editor written with
  | None => SearchEngine.Raises _ "EditorError" "Failed to open editor"
  | Some read_back =>
      let edited_content :=
        match message with
        | Some m =>
            if PyText.truthy m then remove_header extension read_back
            else read_back
        | None => read_back
        end in
      if negb (PyText.truthy edited_content)
         || negb (PyText.truthy (PyText.strip edited_content))
      then SearchEngine.Returns _ None
      else SearchEngine.Returns _
             (Some (PyText.strip edited_content ++ PyLines.newline)%string)
  end.

End Editor.

End EditorManager.

(** ** Shapes of texts that the statements speak of *)

Module TextShape.

(** No character of the text is the given one. *)
Fixpoint no_char (c : ascii) (s : string) : bool :=
  match s with
  | EmptyString => true
  | String d t => negb (d =? c)%char && no_char c t
  end.



(** [line] is a line that only holds blanks. *)
Definition blank (line : string) : bool :=
  negb (PyText.truthy (PyText.strip line)).

End TextShape.

(** ** More Python built-ins: splitting at a text *)

Module PySplit.

(** [s.split(sep)] for a separator that is not empty: the occurrences are
    taken from the left and do not overlap; [skip] characters of the
    separator just found are still to be passed. *)
Fixpoint split_from (sep : string) (skip : nat) (s : string)
  : list string :=
  match s with
  | EmptyString => [EmptyString]
  | String c t =>
      match skip with
      | S k => split_from sep k t
      | O =>
          if prefix sep s
          then EmptyString
               :: split_from sep (Nat.pred (String.length sep)) t
          else
            match split_from sep 0 t with
            | piece :: pieces => String c piece :: pieces
            | [] => [String c EmptyString]
            end
      end
  end.

Definition split (s sep : string) : list string := split_from sep 0 s.

(** [s.rsplit(sep, 1)] for a separator of one character: the text cut at
    the last separator, when there is one. *)
Fixpoint rsplit_last (sep : ascii) (s : string) : option (string * string) :=
  match s with
  | EmptyString => None
  | String c t =>
      match rsplit_last sep t with
      | Some (before, after) => Some (String c before, after)
      | None => if (c =? sep)%char then Some (EmptyString, t) else None
      end
  end.

(** [s.rsplit(sep, 1)[0]]. *)
Definition rsplit_head (sep : ascii) (s : string) : string :=
  match rsplit_last sep s with
  | Some (before, _) => before
  | None => s
  end.

End PySplit.

(** While [split] passes a separator [Tags:] that it has found, the text
    ahead starts with the rest of that separator. *)
Module SplitState.

Definition inside_separator (skip : nat) (s : string) : Prop :=
  match skip with
  | 0%nat => True
  | 1%nat => prefix ":" s = true
  | 2%nat => prefix "s:" s = true
  | 3%nat => prefix "gs:" s = true
  | 4%nat => prefix "ags:" s = true
  | _ => False
  end.

End SplitState.

(** ** [fredo/integrations/gist.py]: a snippet as a Gist and back *)

Module GistManager.

(** What the code reads of a file of a Gist and of a Gist. *)
Record GistFile : Type := {
  filename : string;
  file_content : string;
  file_language : option string
}.

Record Gist : Type := {
  gist_ident : string;
  html_url : string;
  description : option string;
  files : list GistFile
}.

(** The file name and the description that [create_gist] and
    [update_gist] hand to GitHub. *)
Definition gist_filename (snippet : Models.Snippet) : string :=
  (Models.name snippet ++ SnippetModel.get_file_extension snippet)%string.

Definition gist_description (snippet : Models.Snippet) : string :=
  let tags_str :=
    match Models.tags snippet with
    | [] => "no tags"
    | _ :: _ => String.concat ", " (Models.tags snippet)
    end in
  (Models.name snippet ++ " (" ++ Models.language snippet ++ ") - Tags: "
   ++ tags_str)%string.

(** The tags read from a description. *)
Definition tags_of_description (description : option string)
  : list string :=
  match description with
  | Some d =>
      if PyText.truthy d && Py.contains "Tags:" d
      then
        let tags_part :=
          PyText.strip (last (PySplit.split d "Tags:") EmptyString) in
        if PyText.truthy tags_part && negb (tags_part =? "no tags")%string
        then map PyText.strip (PySplit.split tags_part ",")
        else []
      else []
  | None => []
  end.

Section Conversion.

(** What the defaults of the model draw for a new snippet: the identifier
    and the two readings of the clock. *)
Variables (new_id created updated : string).

(** [gist_to_snippet]; whatever goes wrong inside is raised as a
    [GistError], whose message ends with the text of the first error (left
    out for the error of the constructor). *)
Definition gist_to_snippet (gist : Gist)
  : SearchEngine.outcome Models.Snippet :=
  match files gist with
  | [] =>
      SearchEngine.Raises _ "GistError"
        "Failed to convert Gist to snippet: Gist has no files"
  | file :: _ =>
      let name :=
        if Py.contains "." (filename file)
        then PySplit.rsplit_head "." (filename file)
        else filename file in
      let tags := tags_of_description (description gist) in
      let language := ConfigManager.or_else (file_language file) "auto" in
      match
        SnippetModel.init
          {| Models.id := new_id;
             Models.name := name;
             Models.content := file_content file;
             Models.language :=
               if PyText.truthy language then Py.lower language else "auto";
             Models.tags := tags;
             Models.execution_mode := "current";
             Models.gist_id := Some (gist_ident gist);
             Models.gist_url := Some (html_url gist);
             Models.created_at := created;
             Models.updated_at := updated |}
      with
      | SearchEngine.Returns _ snippet => SearchEngine.Returns _ snippet
      | SearchEngine.Raises _ _ _ =>
          SearchEngine.Raises _ "GistError"
            "Failed to convert Gist to snippet"
      end
  end.

End Conversion.

End GistManager.

(** ** More concrete inputs *)

Module Samples.

(** Field values as a caller may give them, and the snippet that the
    constructor makes of them. *)
Definition raw_fields : Models.Snippet :=
  Examples.make "11" "Deploy" "make deploy" ["  Docker "; "   "; "API"]
    "2024-01-05T10:00:00".

Definition deploy : Models.Snippet :=
  Examples.make "11" "Deploy" "make deploy" ["docker"; "api"]
    "2024-01-05T10:00:00".

(** The snippet [fetch] of the tag store with a new content. *)
Definition fetch_edited : Models.Snippet :=
  Examples.make "8" "fetch" "get --retry" ["api"] "2024-01-02T10:00:00".

(** A snippet with the name of a stored one and another identifier. *)
Definition fetch_again : Models.Snippet :=
  Examples.make "12" "fetch" "curl" [] "2024-01-06T10:00:00".

(** A script with its interpreter line, and the text of it. *)
Definition script_text : string :=
  ("#!/bin/bash" ++ PyLines.newline ++ "echo hi")%string.


Definition editor_unchanged (editor text : string) : option string :=
  Some text.
Definition editor_script (editor text : string) : option string :=
  Some script_text.

(** The Gist that GitHub holds after [create_gist] on [deploy]. *)
Definition deploy_gist : GistManager.Gist :=
  {| GistManager.gist_ident := "abc123";
     GistManager.html_url := "https://gist.github.com/abc123";
     GistManager.description :=
       Some (GistManager.gist_description deploy);
     GistManager.files :=
       [ {| GistManager.filename := GistManager.gist_filename deploy;
            GistManager.file_content := Models.content deploy;
            GistManager.file_language := Some "Makefile" |} ] |}.

End Samples.

(** * Properties *)

(** ** Facts about the Python built-ins *)

Module PyFacts.

Lemma count_from_nonneg (needle hay : string) :
  forall skip, 0 <= Py.count_from needle skip hay.
Proof.
  induction hay as [| c t IH]; intros skip; cbn [Py.count_from].
  - destruct (prefix needle EmptyString); lia.
  - destruct skip as [| k]; [| apply IH].
    destruct (prefix needle (String c t)); [| apply IH].
    specialize (IH (Nat.pred (String.length needle))). lia.
Qed.

(** A string that occurs is counted at least once. *)
Lemma contains_count (needle hay : string) :
  Py.contains needle hay = true -> 1 <= Py.count hay needle.
Proof.
  unfold Py.count.
  induction hay as [| c t IH]; intros Hin.
  - simpl in Hin. rewrite orb_false_r in Hin.
    simpl. change (prefix needle EmptyString) with
      (match needle with EmptyString => true | String _ _ => false end);
      rewrite Hin; lia.
  - cbn [Py.count_from].
    destruct (prefix needle (String c t)) eqn:Hp.
    + pose proof
        (count_from_nonneg needle t (Nat.pred (String.length needle))).
      lia.
    + cbn [Py.contains] in Hin. rewrite Hp in Hin. apply IH, Hin.
Qed.


Lemma sum_bools_three (a b c : bool) :
  1 < Py.sum_bools [a; b; c] <->
  (a = true /\ b = true) \/ (a = true /\ c = true)
  \/ (b = true /\ c = true).
Proof.
  destruct a, b, c; cbn; intuition (try lia; try discriminate).
Qed.

(** The sort only rearranges the list, whatever the order is. *)
Section SortAny.
Context {A : Type} (lt : A -> A -> bool).

Lemma insert_desc_perm (x : A) (l : list A) :
  Permutation (Py.insert_desc lt x l) (x :: l).
Proof.
  induction l as [| y ys IH]; simpl.
  - apply Permutation_refl.
  - destruct (lt x y).
    + eapply Permutation_trans; [apply perm_skip, IH | apply perm_swap].
    + apply Permutation_refl.
Qed.

Lemma sort_desc_perm (l : list A) :
  Permutation (Py.sort_desc lt l) l.
Proof.
  induction l as [| x xs IH]; simpl.
  - constructor.
  - eapply Permutation_trans; [apply insert_desc_perm |].
    apply perm_skip, IH.
Qed.

Lemma sort_desc_In (x : A) (l : list A) :
  In x (Py.sort_desc lt l) <-> In x l.
Proof.
  split; apply Permutation_in;
    [| apply Permutation_sym]; apply sort_desc_perm.
Qed.

Lemma sort_desc_length (l : list A) :
  List.length (Py.sort_desc lt l) = List.length l.
Proof. apply Permutation_length, sort_desc_perm. Qed.
End SortAny.

(** The descending sort on integer keys. *)
Section SortByKey.
Context {A : Type} (key : A -> Z).

Lemma insert_desc_sorted (x : A) (l : list A) :
  Sorted (fun x y => key y <= key x) l ->
  Sorted (fun x y => key y <= key x)
    (Py.insert_desc (fun x y => key x <? key y) x l).
Proof.
  induction 1 as [| y ys Hs IH Hhd]; simpl.
  - repeat constructor.
  - destruct (key x <? key y) eqn:E.
    + constructor; [exact IH |].
      apply Z.ltb_lt in E.
      destruct ys as [| z zs]; simpl.
      * constructor. lia.
      * inversion Hhd; subst.
        destruct (key x <? key z); constructor; lia.
    + apply Z.ltb_ge in E.
      constructor; [constructor; assumption | constructor; lia].
Qed.

Lemma sort_desc_sorted (l : list A) :
  Sorted (fun x y => key y <= key x)
    (Py.sort_desc (fun x y => key x <? key y) l).
Proof.
  induction l as [| x xs IH]; simpl.
  - constructor.
  - apply insert_desc_sorted, IH.
Qed.

(** Stability: the elements of one key come out in the order they went
    in. *)
Lemma insert_desc_same_key (k : Z) (x : A) (l : list A) :
  filter (fun y => key y =? k)
    (Py.insert_desc (fun x y => key x <? key y) x l)
  = filter (fun y => key y =? k) (x :: l).
Proof.
  induction l as [| y ys IH]; simpl.
  - reflexivity.
  - destruct (key x <? key y) eqn:E; simpl in *.
    + rewrite IH. apply Z.ltb_lt in E.
      destruct (key x =? k) eqn:Ex, (key y =? k) eqn:Ey;
        try reflexivity.
      apply Z.eqb_eq in Ex, Ey. lia.
    + reflexivity.
Qed.

Lemma sort_desc_stable (k : Z) (l : list A) :
  filter (fun y => key y =? k)
    (Py.sort_desc (fun x y => key x <? key y) l)
  = filter (fun y => key y =? k) l.
Proof.
  induction l as [| x xs IH]; simpl.
  - reflexivity.
  - rewrite insert_desc_same_key. simpl. now rewrite IH.
Qed.

(** A list that is already in descending order is left as it is. *)
Lemma sort_desc_sorted_id (l : list A) :
  Sorted (fun x y => key y <= key x) l ->
  Py.sort_desc (fun x y => key x <? key y) l = l.
Proof.
  induction 1 as [| y ys Hs IH Hhd]; simpl.
  - reflexivity.
  - rewrite IH. destruct Hhd as [| z zs Hz]; simpl.
    + reflexivity.
    + destruct (key y <? key z) eqn:E; [| reflexivity].
      apply Z.ltb_lt in E. lia.
Qed.
End SortByKey.

End PyFacts.

(** ** The exact products stand for the float products *)

Module PyFloatFacts.

Lemma agree_below_spec (c : PrimFloat.float) (exact : Z -> Z) (n : nat) :
  PyFloat.agree_below c exact n = true ->
  forall x, 0 <= x < Z.of_nat n -> PyFloat.int_of_product x c = exact x.
Proof.
  unfold PyFloat.agree_below. intros H x Hx.
  rewrite forallb_forall in H.
  specialize (H (Z.to_nat x)). rewrite Z2Nat.id in H by lia.
  apply Z.eqb_eq, H, in_seq. lia.
Qed.

(** A ratio is a percentage. *)
Lemma int_times_0_9_float (x : Z) :
  0 <= x <= 100 ->
  PyFloat.int_of_product x PyFloat.literal_0_9 = Py.int_times_0_9 x.
Proof.
  intros Hx. apply (agree_below_spec _ Py.int_times_0_9 101);
    [vm_compute; reflexivity | lia].
Qed.

Lemma int_times_0_5_float (x : Z) :
  0 <= x <= 100 ->
  PyFloat.int_of_product x PyFloat.literal_0_5 = Py.int_times_0_5 x.
Proof.
  intros Hx. apply (agree_below_spec _ Py.int_times_0_5 101);
    [vm_compute; reflexivity | lia].
Qed.

(** A total is at most 70 times the number of tags; checked up to 4000. *)
Lemma int_times_1_1_float (x : Z) :
  0 <= x <= 4000 ->
  PyFloat.int_of_product x PyFloat.literal_1_1 = Py.int_times_1_1 x.
Proof.
  intros Hx. apply (agree_below_spec _ Py.int_times_1_1 4001);
    [vm_compute; reflexivity | lia].
Qed.

End PyFloatFacts.

(** ** The reference similarity primitives return percentages *)

Module TheFuzzFacts.

Lemma lcs_le_left (a : string) :
  forall b, (TheFuzz.lcs a b <= String.length a)%nat.
Proof.
  induction a as [| x a' IH]; intros b.
  - destruct b; simpl; lia.
  - induction b as [| y b' IHb]; simpl in *.
    + lia.
    + destruct (x =? y)%char.
      * specialize (IH b'). lia.
      * specialize (IH (String y b')). lia.
Qed.

Lemma lcs_le_right (a : string) :
  forall b, (TheFuzz.lcs a b <= String.length b)%nat.
Proof.
  induction a as [| x a' IH]; intros b.
  - destruct b; simpl; lia.
  - induction b as [| y b' IHb]; simpl in *.
    + lia.
    + destruct (x =? y)%char.
      * specialize (IH b'). lia.
      * specialize (IH (String y b')). simpl in IH. lia.
Qed.

Lemma round_div_range (p q : Z) :
  0 < q -> 0 <= p <= 100 * q -> 0 <= TheFuzz.round_div p q <= 100.
Proof.
  intros Hq Hp. unfold TheFuzz.round_div.
  pose proof (Z.div_mod p q ltac:(lia)) as Hdm.
  pose proof (Z.mod_pos_bound p q Hq) as Hr.
  assert (Hd : 0 <= p / q) by (apply Z.div_pos; lia).
  assert (Hd' : p / q <= 100)
    by (apply Z.div_le_upper_bound; lia).
  assert (Htop : p / q = 100 -> p mod q = 0) by nia.
  destruct (2 * (p mod q) <? q) eqn:E1; [lia |].
  apply Z.ltb_ge in E1.
  assert (p / q < 100) by (destruct (Z.eq_dec (p / q) 100); lia).
  destruct (q <? 2 * (p mod q)); [lia |].
  destruct (Z.even (p / q)); lia.
Qed.

Lemma indel_ratio_range (a b : string) :
  0 <= TheFuzz.indel_ratio a b <= 100.
Proof.
  unfold TheFuzz.indel_ratio.
  destruct (Z.of_nat (String.length a + String.length b) =? 0) eqn:E.
  - lia.
  - apply Z.eqb_neq in E.
    pose proof (lcs_le_left a b). pose proof (lcs_le_right a b).
    apply round_div_range; lia.
Qed.

Lemma best_range (short long : string) :
  0 <= TheFuzz.best short long <= 100.
Proof.
  unfold TheFuzz.best.
  induction (TheFuzz.windows (String.length short) long) as [| w ws IH];
    simpl.
  - lia.
  - pose proof (indel_ratio_range short w). lia.
Qed.

Lemma window_ratio_range (a b : string) :
  0 <= TheFuzz.window_ratio a b <= 100.
Proof.
  pose proof (best_range a b). pose proof (best_range b a).
  unfold TheFuzz.window_ratio.
  destruct a, b; try lia.
  destruct (Nat.compare _ _); lia.
Qed.

End TheFuzzFacts.

#[global] Instance thefuzz_range : FuzzRange thefuzz.
Proof.
  split; intros a b; simpl.
  - apply TheFuzzFacts.indel_ratio_range.
  - apply TheFuzzFacts.window_ratio_range.
Qed.

(** ** The parts of the score *)

Module ScoringFacts.

Section WithFuzz.
Context {F : Fuzz}.

Lemma tag_points_range (q tag : string) :
  0 <= SearchEngine.tag_points q tag <= 70.
Proof.
  unfold SearchEngine.tag_points.
  destruct (Py.contains _ _); [lia |].
  destruct (80 <? _); lia.
Qed.

Lemma tag_score_from (q : string) (tags : list string) :
  forall acc,
    acc <= fold_left (fun a tag => a + SearchEngine.tag_points q tag)
             tags acc
        <= acc + 70 * Z.of_nat (List.length tags).
Proof.
  induction tags as [| t ts IH]; intros acc.
  - simpl. lia.
  - cbn [fold_left List.length].
    specialize (IH (acc + SearchEngine.tag_points q t)).
    pose proof (tag_points_range q t). lia.
Qed.

Lemma tag_score_range (q : string) (tags : list string) :
  0 <= SearchEngine.tag_score q tags <= 70 * Z.of_nat (List.length tags).
Proof.
  unfold SearchEngine.tag_score.
  pose proof (tag_score_from q tags 0). lia.
Qed.

(** A query that occurs in the content earns between 25 and 50. *)
Lemma content_score_found (q content : string) :
  Py.contains q (Py.lower content) = true ->
  25 <= SearchEngine.content_score q content <= 50.
Proof.
  intros Hin. unfold SearchEngine.content_score. rewrite Hin.
  pose proof (PyFacts.contains_count _ _ Hin). lia.
Qed.

Lemma content_score_range `{!FuzzRange F} (q content : string) :
  0 <= SearchEngine.content_score q content <= 50.
Proof.
  destruct (Py.contains q (Py.lower content)) eqn:Hin.
  - pose proof (content_score_found q content Hin). lia.
  - unfold SearchEngine.content_score. rewrite Hin.
    unfold Py.int_times_0_5.
    pose proof
      (partial_ratio_range q
         (Py.str_slice_to (Py.lower content) 500)).
    Z.to_euclidean_division_equations. lia.
Qed.

(** The combination never falls below one of the partial scores that
    is not negative. *)
Lemma combine_lower (ns ts cs : Z) :
  0 <= ts ->
  Z.min 100 (Z.max ts cs) <= SearchEngine.combine ns ts cs.
Proof.
  intros Hts. unfold SearchEngine.combine.
  destruct (1 <? _).
  - unfold Py.int_times_1_1, Py.int_times_0_9.
    Z.to_euclidean_division_equations. lia.
  - lia.
Qed.

Lemma combine_upper (ns ts cs : Z) :
  0 <= ns <= 100 -> cs <= 50 ->
  SearchEngine.combine ns ts cs <= Z.max 100 ts.
Proof.
  intros Hns Hcs. unfold SearchEngine.combine.
  destruct (1 <? _).
  - lia.
  - unfold Py.int_times_0_9.
    Z.to_euclidean_division_equations. lia.
Qed.

(** No score is negative, whatever the similarity primitives return. *)
Lemma calculate_score_nonneg (q : string) (s : Models.Snippet) :
  0 <= SearchEngine._calculate_score q s.
Proof.
  unfold SearchEngine._calculate_score.
  destruct (_ =? _)%string; [lia |].
  destruct (Py.contains _ _); [lia |].
  pose proof (tag_score_range (Py.lower q) (Models.tags s)) as Ht.
  pose proof
    (combine_lower (ratio (Py.lower q) (Py.lower (Models.name s)))
       _ (SearchEngine.content_score (Py.lower q) (Models.content s))
       (proj1 Ht)).
  lia.
Qed.

(** A score above 100 is the plain tag sum. *)
Lemma calculate_score_upper `{!FuzzRange F}
    (q : string) (s : Models.Snippet) :
  SearchEngine._calculate_score q s
  <= Z.max 100 (SearchEngine.tag_score (Py.lower q) (Models.tags s)).
Proof.
  unfold SearchEngine._calculate_score.
  destruct (_ =? _)%string; [lia |].
  destruct (Py.contains _ _); [lia |].
  apply combine_upper.
  - apply ratio_range.
  - apply content_score_range.
Qed.

(** With the tags as the only signal there is no boost, hence no cap: the
    function returns the tag sum itself. *)
Lemma calculate_score_tags_only (q : string) (s : Models.Snippet) :
  Py.lower q <> Py.lower (Models.name s) ->
  Py.contains (Py.lower q) (Py.lower (Models.name s)) = false ->
  ratio (Py.lower q) (Py.lower (Models.name s)) <= 60 ->
  SearchEngine.content_score (Py.lower q) (Models.content s) <= 0 ->
  Py.int_times_0_9 (ratio (Py.lower q) (Py.lower (Models.name s)))
  <= SearchEngine.tag_score (Py.lower q) (Models.tags s) ->
  SearchEngine._calculate_score q s
  = SearchEngine.tag_score (Py.lower q) (Models.tags s).
Proof.
  intros Hne Hsub Hraw Hcs Hnf. unfold SearchEngine._calculate_score.
  apply String.eqb_neq in Hne. rewrite Hne, Hsub.
  pose proof (tag_score_range (Py.lower q) (Models.tags s)) as Hts.
  unfold SearchEngine.combine.
  assert (E1 : (60 <? ratio (Py.lower q) (Py.lower (Models.name s)))
               = false)
    by (apply Z.ltb_ge; lia).
  assert (E2 : (0 <? SearchEngine.content_score (Py.lower q)
                       (Models.content s)) = false)
    by (apply Z.ltb_ge; lia).
  rewrite E1, E2.
  destruct (0 <? SearchEngine.tag_score (Py.lower q) (Models.tags s));
    cbn; lia.
Qed.

(** With at most one tag the score stays within the percentage
    scale. *)
Lemma calculate_score_range_one_tag `{!FuzzRange F}
    (q : string) (s : Models.Snippet) :
  (List.length (Models.tags s) <= 1)%nat ->
  0 <= SearchEngine._calculate_score q s <= 100.
Proof.
  intros Hlen. split; [apply calculate_score_nonneg |].
  pose proof (calculate_score_upper q s).
  pose proof (tag_score_range (Py.lower q) (Models.tags s)).
  lia.
Qed.
End WithFuzz.

End ScoringFacts.

(** ** The ranking engine *)

Module RankingFacts.

Section WithFuzz.
Context {F : Fuzz}.

Lemma apply_limit_none (results : list SearchResult) :
  SearchEngine.apply_limit results None = results.
Proof. reflexivity. Qed.

(** A limit of zero is as good as no limit. *)
Lemma apply_limit_zero (results : list SearchResult) :
  SearchEngine.apply_limit results (Some 0) = results.
Proof. reflexivity. Qed.

Lemma apply_limit_positive (results : list SearchResult) (n : Z) :
  0 < n ->
  SearchEngine.apply_limit results (Some n)
  = firstn (Z.to_nat n) results.
Proof.
  intros Hn. unfold SearchEngine.apply_limit, Py.truthy_int, Py.slice_to.
  destruct (n =? 0) eqn:E0; [apply Z.eqb_eq in E0; lia |].
  destruct (0 <=? n) eqn:E1; [reflexivity | apply Z.leb_gt in E1; lia].
Qed.


(** The two branches of [search]. *)
Lemma search_no_query (db : Database.Table) (language : option string)
    (tags : option (list string)) (limit : option Z) :
  SearchEngine.search db None language tags limit
  = SearchEngine.apply_limit
      (map (fun s => Build_SearchResult s 100)
           (Database.search db None language tags))
      limit.
Proof. reflexivity. Qed.

Lemma search_query (db : Database.Table) (q : string)
    (language : option string) (tags : option (list string))
    (limit : option Z) :
  q <> EmptyString ->
  SearchEngine.search db (Some q) language tags limit
  = SearchEngine.apply_limit
      (SearchEngine.sort_results
         (SearchEngine.score_all q
            (Database.search db None language tags)))
      limit.
Proof.
  intros Hq. unfold SearchEngine.search, Py.truthy_str.
  apply String.eqb_neq in Hq. now rewrite Hq.
Qed.

Lemma search_limit_is_apply_limit (db : Database.Table)
    (query language : option string) (tags : option (list string))
    (limit : option Z) :
  SearchEngine.search db query language tags limit
  = SearchEngine.apply_limit
      (SearchEngine.search db query language tags None) limit.
Proof.
  unfold SearchEngine.search.
  destruct query as [q |]; [destruct (Py.truthy_str (Some q)) |];
    reflexivity.
Qed.

(** Every scored candidate that is kept has a positive score. *)
Lemma score_all_positive (q : string) (snippets : list Models.Snippet) :
  Forall (fun r => 0 < score r) (SearchEngine.score_all q snippets).
Proof.
  unfold SearchEngine.score_all. apply Forall_forall.
  intros r Hr. apply filter_In in Hr. now apply Z.ltb_lt.
Qed.

Lemma score_all_In (q : string) (snippets : list Models.Snippet)
    (r : SearchResult) :
  In r (SearchEngine.score_all q snippets) <->
  In (snippet r) snippets
  /\ score r = SearchEngine._calculate_score q (snippet r)
  /\ 0 < score r.
Proof.
  unfold SearchEngine.score_all. rewrite filter_In, in_map_iff.
  rewrite Z.ltb_lt. split.
  - intros [[s [<- Hs]] Hpos]. simpl in *. auto.
  - intros [Hs [Hsc Hpos]]. split; [| exact Hpos].
    exists (snippet r). split; [| exact Hs].
    destruct r as [s sc]. simpl in *. now subst sc.
Qed.

(** What a query search without limit returns: the kept candidates,
    rearranged into descending scores, ties in the Store's order. *)
Lemma search_query_ranked (db : Database.Table) (q : string)
    (language : option string) (tags : option (list string)) :
  q <> EmptyString ->
  let kept :=
    SearchEngine.score_all q (Database.search db None language tags) in
  let ranked := SearchEngine.search db (Some q) language tags None in
  Permutation ranked kept
  /\ Sorted by_score_desc ranked
  /\ forall k,
       filter (fun r => score r =? k) ranked
       = filter (fun r => score r =? k) kept.
Proof.
  intros Hq kept ranked. subst ranked.
  rewrite (search_query _ _ _ _ _ Hq), apply_limit_none.
  fold kept. unfold SearchEngine.sort_results.
  split; [apply PyFacts.sort_desc_perm |].
  split; [apply (PyFacts.sort_desc_sorted score) |].
  intros k. apply (PyFacts.sort_desc_stable score).
Qed.

(** A positive limit keeps that many results from the top. *)
Lemma search_limit_positive (db : Database.Table)
    (query language : option string) (tags : option (list string))
    (n : Z) :
  0 < n ->
  SearchEngine.search db query language tags (Some n)
  = firstn (Z.to_nat n)
      (SearchEngine.search db query language tags None).
Proof.
  intros Hn. rewrite search_limit_is_apply_limit.
  now apply apply_limit_positive.
Qed.

(** A limit of zero changes nothing. *)
Lemma search_limit_zero (db : Database.Table)
    (query language : option string) (tags : option (list string)) :
  SearchEngine.search db query language tags (Some 0)
  = SearchEngine.search db query language tags None.
Proof. rewrite search_limit_is_apply_limit. apply apply_limit_zero. Qed.
End WithFuzz.

End RankingFacts.

(** ** The scoring function *)

(** C1.  The score is not always within 0..100: for the query [xy] and a
    snippet whose two tags both hold [xy], while its name and its content
    share no character with the query, the function returns the tag sum
    140.  Only the boost caps at 100, and with a single signal there is no
    boost. *)
Theorem C1_two_tag_hits_score_140 :
  SearchEngine._calculate_score (F := thefuzz) "xy" Examples.two_tags = 140
  /\ ~ (0 <= SearchEngine._calculate_score (F := thefuzz) "xy"
               Examples.two_tags <= 100).
Proof.
  assert (E : SearchEngine._calculate_score (F := thefuzz) "xy"
                Examples.two_tags = 140) by (vm_compute; reflexivity).
  rewrite E. split; [reflexivity | lia].
Qed.

(** C6.  A query that equals the snippet's name up to case scores exactly
    100, whatever the similarity primitives, the tags and the content are:
    the function returns before it looks at any of them. *)
Theorem C6_exact_name_scores_100 {F : Fuzz}
    (q : string) (s : Models.Snippet) :
  Py.lower q = Py.lower (Models.name s) ->
  SearchEngine._calculate_score q s = 100.
Proof.
  intros Heq. unfold SearchEngine._calculate_score.
  rewrite Heq, String.eqb_refl. reflexivity.
Qed.

Lemma C6_exact_name_witness :
  Py.lower "DOCKER-Compose"
  = Py.lower (Models.name Examples.docker_compose)
  /\ SearchEngine._calculate_score (F := thefuzz) "DOCKER-Compose"
       Examples.docker_compose = 100.
Proof.
  split; [reflexivity |].
  apply (C6_exact_name_scores_100 (F := thefuzz)). reflexivity.
Defined.

(** Scoring a snippet against its own name is the case of equal strings. *)
Lemma own_name_scores_100 {F : Fuzz} (s : Models.Snippet) :
  SearchEngine._calculate_score (Models.name s) s = 100.
Proof.
  unfold SearchEngine._calculate_score.
  rewrite String.eqb_refl. reflexivity.
Qed.

(** C5, as the code has it.  Past the two short cuts, the first counted
    signal is the raw ratio above 60.  With a name fuzzy score
    [ratio * 9 / 10] (floored), when at least two of [ratio > 60],
    [tagScore > 0], [contentScore > 0] hold the function returns
    [min 100 (floor (max * 1.1))], and otherwise the plain maximum. *)
Theorem C5_boost_counts_raw_ratio {F : Fuzz} `{!FuzzRange F}
    (q : string) (s : Models.Snippet) :
  Py.lower q <> Py.lower (Models.name s) ->
  Py.contains (Py.lower q) (Py.lower (Models.name s)) = false ->
  let raw := ratio (Py.lower q) (Py.lower (Models.name s)) in
  let name_fuzzy := (raw * 9) / 10 in
  let tag_score := SearchEngine.tag_score (Py.lower q) (Models.tags s) in
  let content_score :=
    SearchEngine.content_score (Py.lower q) (Models.content s) in
  let total := Z.max (Z.max name_fuzzy tag_score) content_score in
  let several :=
    (60 < raw /\ 0 < tag_score) \/ (60 < raw /\ 0 < content_score)
    \/ (0 < tag_score /\ 0 < content_score) in
  (several ->
   SearchEngine._calculate_score q s = Z.min 100 ((total * 11) / 10))
  /\ (~ several -> SearchEngine._calculate_score q s = total).
Proof.
  intros Hne Hsub raw name_fuzzy tag_score content_score total several.
  unfold SearchEngine._calculate_score.
  apply String.eqb_neq in Hne. rewrite Hne, Hsub.
  fold raw tag_score content_score.
  pose proof (ratio_range (Py.lower q) (Py.lower (Models.name s))) as Hraw.
  fold raw in Hraw.
  pose proof (ScoringFacts.tag_score_range (Py.lower q) (Models.tags s))
    as Hts.
  fold tag_score in Hts.
  assert (Hnf : Py.int_times_0_9 raw = name_fuzzy).
  { unfold Py.int_times_0_9, name_fuzzy. apply Z.quot_div_nonneg; lia. }
  assert (Htot : 0 <= total) by (unfold total; lia).
  unfold SearchEngine.combine. rewrite Hnf. fold total.
  assert (Hboost : Py.int_times_1_1 total = (total * 11) / 10).
  { unfold Py.int_times_1_1. apply Z.quot_div_nonneg; lia. }
  rewrite Hboost.
  pose proof (PyFacts.sum_bools_three
                (60 <? raw) (0 <? tag_score) (0 <? content_score)) as Hsum.
  rewrite !Z.ltb_lt in Hsum. fold several in Hsum.
  destruct (1 <? Py.sum_bools _) eqn:E.
  - apply Z.ltb_lt in E. split; [reflexivity |].
    intros Hnot. exfalso. apply Hnot, Hsum, E.
  - apply Z.ltb_ge in E. split; [| reflexivity].
    intros Hsev. apply Hsum in Hsev. lia.
Qed.

Lemma C5_boost_witness :
  Py.lower "ab" <> Py.lower (Models.name Examples.near_name)
  /\ Py.contains (Py.lower "ab") (Py.lower (Models.name Examples.near_name))
     = false
  /\ SearchEngine._calculate_score (F := thefuzz) "ab" Examples.near_name
     = 66.
Proof.
  assert (Hne : Py.lower "ab" <> Py.lower (Models.name Examples.near_name))
    by (vm_compute; discriminate).
  assert (Hsub : Py.contains (Py.lower "ab")
                   (Py.lower (Models.name Examples.near_name)) = false)
    by reflexivity.
  split; [exact Hne | split; [exact Hsub |]].
  destruct (C5_boost_counts_raw_ratio (F := thefuzz) "ab"
              Examples.near_name Hne Hsub) as [Hboost _].
  rewrite Hboost; [vm_compute; reflexivity |].
  right. left. vm_compute. split; reflexivity.
Defined.

(** C5, as the specification words it, fails: for the query [ab] against the name
    [axyb] (raw ratio 67, name fuzzy score 60) with the content [ab], the
    code boosts 60 to 66, while the policy that counts [nameFuzzy > 60] sees
    a single signal and keeps 60. *)
Lemma C5_boost_counterexample :
  SearchEngine._calculate_score (F := thefuzz) "ab" Examples.near_name = 66
  /\ Spec.calculate_score (F := thefuzz) "ab" Examples.near_name = 60
  /\ SearchEngine._calculate_score (F := thefuzz) "ab" Examples.near_name
     <> Spec.calculate_score (F := thefuzz) "ab" Examples.near_name.
Proof.
  repeat split; try (vm_compute; reflexivity).
  vm_compute. discriminate.
Qed.

(** The part of the boost rule that the two readings share: signals of the
    specification are signals of the code. *)
Lemma spec_signals_boost {F : Fuzz} `{!FuzzRange F} (ns ts cs : Z) :
  0 <= ns <= 100 -> 0 <= ts ->
  1 < Py.sum_bools [60 <? (ns * 9) / 10; 0 <? ts; 0 <? cs] ->
  SearchEngine.combine ns ts cs
  = Z.min 100 ((Z.max (Z.max ((ns * 9) / 10) ts) cs * 11) / 10).
Proof.
  intros Hns Hts Hsig. unfold SearchEngine.combine.
  assert (Hnf : Py.int_times_0_9 ns = (ns * 9) / 10)
    by (apply Z.quot_div_nonneg; lia).
  rewrite Hnf.
  assert (Hcode : 1 < Py.sum_bools [60 <? ns; 0 <? ts; 0 <? cs]).
  { apply PyFacts.sum_bools_three. apply PyFacts.sum_bools_three in Hsig.
    rewrite !Z.ltb_lt in *.
    assert (60 < ns * 9 / 10 -> 60 < ns)
      by (intros; Z.to_euclidean_division_equations; lia).
    tauto. }
  apply Z.ltb_lt in Hcode. rewrite Hcode.
  unfold Py.int_times_1_1. rewrite Z.quot_div_nonneg; [reflexivity | | lia].
  Z.to_euclidean_division_equations. lia.
Qed.

(** C10.  A non-empty query that is neither the name nor part of it, but
    occurs in the content, scores at least 25, and the snippet is among the
    results of an unlimited search for that query whenever the Store
    returns it. *)
Theorem C10_content_hit_scores_25 {F : Fuzz}
    (q : string) (s : Models.Snippet) :
  q <> EmptyString ->
  Py.lower q <> Py.lower (Models.name s) ->
  Py.contains (Py.lower q) (Py.lower (Models.name s)) = false ->
  Py.contains (Py.lower q) (Py.lower (Models.content s)) = true ->
  25 <= SearchEngine._calculate_score q s
  /\ forall db language tags,
       In s (Database.search db None language tags) ->
       In (Build_SearchResult s (SearchEngine._calculate_score q s))
          (SearchEngine.search db (Some q) language tags None).
Proof.
  intros Hq Hne Hsub Hin.
  assert (Hscore : 25 <= SearchEngine._calculate_score q s).
  { unfold SearchEngine._calculate_score.
    apply String.eqb_neq in Hne. rewrite Hne, Hsub.
    pose proof (ScoringFacts.content_score_found _ _ Hin) as Hcs.
    pose proof (ScoringFacts.tag_score_range (Py.lower q) (Models.tags s))
      as Hts.
    pose proof
      (ScoringFacts.combine_lower
         (ratio (Py.lower q) (Py.lower (Models.name s))) _
         (SearchEngine.content_score (Py.lower q) (Models.content s))
         (proj1 Hts)).
    lia. }
  split; [exact Hscore |].
  intros db language tags Hs.
  rewrite (RankingFacts.search_query _ _ _ _ _ Hq).
  rewrite RankingFacts.apply_limit_none.
  unfold SearchEngine.sort_results. apply PyFacts.sort_desc_In.
  apply RankingFacts.score_all_In. simpl.
  split; [exact Hs | split; [reflexivity | lia]].
Qed.

Lemma C10_content_hit_witness :
  25 <= SearchEngine._calculate_score (F := thefuzz) "Docker"
          Examples.deploy_script
  /\ In (Build_SearchResult Examples.deploy_script
           (SearchEngine._calculate_score (F := thefuzz) "Docker"
              Examples.deploy_script))
        (SearchEngine.search (F := thefuzz) Examples.docker_store
           (Some "Docker") None None None).
Proof.
  destruct (C10_content_hit_scores_25 (F := thefuzz) "Docker"
              Examples.deploy_script) as [Hscore Hkept].
  - discriminate.
  - vm_compute. discriminate.
  - reflexivity.
  - reflexivity.
  - split; [exact Hscore |].
    apply Hkept. vm_compute. left. reflexivity.
Defined.

(** ** The ranking engine: limits and queries *)

(** C2.  A limit of zero does not empty the result: on the three-snippet
    store, [search(limit=0)] returns all three snippets with score 100,
    because [if limit:] takes zero for an absent limit. *)
Theorem C2_limit_zero_returns_everything :
  SearchEngine.search (F := thefuzz) Examples.docker_store
    None None None (Some 0)
  = [ Build_SearchResult Examples.deploy_script 100;
      Build_SearchResult Examples.docker_compose 100;
      Build_SearchResult Examples.docker 100 ].
Proof. vm_compute. reflexivity. Qed.







(** C7.  With a limit of zero the ranked list of a query search is not cut
    to zero results: searching the scenario store for [docker] with
    [limit=0] returns all three ranked results. *)
Theorem C7_query_limit_zero_not_truncated :
  SearchEngine.search (F := thefuzz) Examples.docker_store
    (Some "docker") None None (Some 0)
  = [ Build_SearchResult Examples.docker 100;
      Build_SearchResult Examples.docker_compose 95;
      Build_SearchResult Examples.deploy_script 37 ].
Proof. vm_compute. reflexivity. Qed.

(** C8.  The empty query and the absent query give the same ordered
    results, for every store, language, tag filter and limit. *)
Theorem C8_empty_query_is_no_query {F : Fuzz}
    (db : Database.Table) (language : option string)
    (tags : option (list string)) (limit : option Z) :
  SearchEngine.search db (Some EmptyString) language tags limit
  = SearchEngine.search db None language tags limit.
Proof. reflexivity. Qed.

(** ** The Store's tag filter *)

Module StoreFacts.

Lemma append_assoc (a b c : string) :
  ((a ++ b) ++ c = a ++ (b ++ c))%string.
Proof. induction a as [| x a IH]; simpl; [reflexivity | now rewrite IH]. Qed.

(** *** [LIKE] *)







(** *** [json.dumps] *)





(** *** [Database.search] with a tag filter *)

Lemma order_by_In (s : Models.Snippet) (rows : list Models.Snippet) :
  In s (Database.order_by_updated_at_desc rows) <-> In s rows.
Proof. apply PyFacts.sort_desc_In. Qed.



(** The scenario of the tag filter: one snippet tagged [docker], one
    tagged [api]; the filter of both tags returns both, newest first, and
    not the third snippet. *)
Lemma search_docker_or_api :
  Database.search Examples.tag_store None None (Some ["docker"; "api"])
  = [Examples.tagged_api; Examples.tagged_docker].
Proof. vm_compute. reflexivity. Qed.

End StoreFacts.

(** C9.  The tag filter does not find every snippet that carries a tag of
    the filter: the snippet tagged with [cafe] written with an acute accent
    is stored as the JSON text with the escape [\u00e9], which the pattern
    built from the tag itself does not match, so the search by that very
    tag returns nothing. *)
Theorem C9_accented_tag_not_found :
  In Examples.cafe (Models.tags Examples.tagged_cafe)
  /\ In Examples.cafe [Examples.cafe]
  /\ Database.json_dumps (Models.tags Examples.tagged_cafe)
     = ("[" ++ Database.dquote ++ "caf\u00e9" ++ Database.dquote ++ "]")%string
  /\ Database.search [Examples.tagged_cafe] None None (Some [Examples.cafe])
     = [].
Proof.
  repeat split; try (vm_compute; reflexivity); left; reflexivity.
Qed.


(** ** Whitespace and case *)

Module PyTextFacts.

Lemma lower_char_idem (c : ascii) :
  Py.lower_char (Py.lower_char c) = Py.lower_char c.
Proof.
  destruct c as [b0 b1 b2 b3 b4 b5 b6 b7].
  destruct b0, b1, b2, b3, b4, b5, b6, b7; reflexivity.
Qed.

Lemma lower_idem (s : string) : Py.lower (Py.lower s) = Py.lower s.
Proof.
  induction s as [| c t IH]; simpl; [reflexivity |].
  now rewrite lower_char_idem, IH.
Qed.

(** Lowering a character never makes or unmakes a blank. *)
Lemma isspace_lower_char (c : ascii) :
  PyText.isspace_char (Py.lower_char c) = PyText.isspace_char c.
Proof.
  destruct c as [b0 b1 b2 b3 b4 b5 b6 b7].
  destruct b0, b1, b2, b3, b4, b5, b6, b7; reflexivity.
Qed.

Lemma lower_empty (s : string) :
  Py.lower s = EmptyString <-> s = EmptyString.
Proof. destruct s; simpl; split; intros H; try reflexivity; discriminate. Qed.

Lemma lstrip_lower (s : string) :
  PyText.lstrip (Py.lower s) = Py.lower (PyText.lstrip s).
Proof.
  induction s as [| c t IH]; simpl; [reflexivity |].
  rewrite isspace_lower_char.
  destruct (PyText.isspace_char c); [exact IH | reflexivity].
Qed.

Lemma rstrip_lower (s : string) :
  PyText.rstrip (Py.lower s) = Py.lower (PyText.rstrip s).
Proof.
  induction s as [| c t IH]; simpl; [reflexivity |].
  rewrite IH, isspace_lower_char.
  destruct (PyText.rstrip t); simpl; [| reflexivity].
  destruct (PyText.isspace_char c); reflexivity.
Qed.

Lemma strip_lower (s : string) :
  PyText.strip (Py.lower s) = Py.lower (PyText.strip s).
Proof. unfold PyText.strip. now rewrite lstrip_lower, rstrip_lower. Qed.

Lemma lstrip_idem (s : string) :
  PyText.lstrip (PyText.lstrip s) = PyText.lstrip s.
Proof.
  induction s as [| c t IH]; simpl; [reflexivity |].
  destruct (PyText.isspace_char c) eqn:E; [exact IH |].
  simpl. now rewrite E.
Qed.

Lemma rstrip_idem (s : string) :
  PyText.rstrip (PyText.rstrip s) = PyText.rstrip s.
Proof.
  induction s as [| c t IH]; simpl; [reflexivity |].
  destruct (PyText.rstrip t) as [| d t'] eqn:E.
  - destruct (PyText.isspace_char c) eqn:Ec; simpl; [reflexivity |].
    now rewrite Ec.
  - cbn [PyText.rstrip]. cbn [PyText.rstrip] in IH. now rewrite IH.
Qed.

(** What [rstrip] leaves starts like the string it was given. *)
Lemma rstrip_head (c : ascii) (t : string) :
  PyText.isspace_char c = false ->
  exists t', PyText.rstrip (String c t) = String c t'.
Proof.
  intros Hc. simpl. destruct (PyText.rstrip t).
  - rewrite Hc. now exists EmptyString.
  - eexists. reflexivity.
Qed.

Lemma lstrip_head (s : string) :
  PyText.lstrip s = EmptyString
  \/ exists c t, PyText.lstrip s = String c t
                 /\ PyText.isspace_char c = false.
Proof.
  induction s as [| c t IH]; simpl; [now left |].
  destruct (PyText.isspace_char c) eqn:E; [exact IH |].
  right. now exists c, t.
Qed.

Lemma lstrip_strip (s : string) :
  PyText.lstrip (PyText.strip s) = PyText.strip s.
Proof.
  unfold PyText.strip.
  destruct (lstrip_head s) as [E | [c [t [E Hc]]]]; rewrite E.
  - reflexivity.
  - destruct (rstrip_head c t Hc) as [t' E'].
    rewrite E'. simpl. now rewrite Hc.
Qed.

Lemma strip_idem (s : string) :
  PyText.strip (PyText.strip s) = PyText.strip s.
Proof.
  unfold PyText.strip at 1. rewrite lstrip_strip.
  unfold PyText.strip. apply rstrip_idem.
Qed.

End PyTextFacts.

(** ** [models.py]: the validators *)

Module SnippetModelFacts.

Lemma validated_tag_fixed (tag : string) :
  PyText.strip (Py.lower (PyText.strip tag)) = Py.lower (PyText.strip tag)
  /\ Py.lower (Py.lower (PyText.strip tag)) = Py.lower (PyText.strip tag).
Proof.
  split.
  - now rewrite PyTextFacts.strip_lower, PyTextFacts.strip_idem.
  - apply PyTextFacts.lower_idem.
Qed.

Lemma truthy_lower (s : string) :
  PyText.truthy (Py.lower s) = PyText.truthy s.
Proof. destruct s; reflexivity. Qed.

Lemma validate_tags_normal (v : list string) :
  Forall (fun tag => tag <> EmptyString
                     /\ PyText.strip tag = tag
                     /\ Py.lower tag = tag)
         (SnippetModel.validate_tags v)
  /\ SnippetModel.validate_tags (SnippetModel.validate_tags v)
     = SnippetModel.validate_tags v.
Proof.
  unfold SnippetModel.validate_tags.
  induction v as [| t ts [IHn IHi]]; [split; [constructor | reflexivity] |].
  cbn [filter].
  destruct (PyText.truthy (PyText.strip t)) eqn:Ht; [| now split].
  destruct (validated_tag_fixed t) as [Hs Hl].
  cbn [map]. split.
  - constructor; [| exact IHn].
    split; [| now split].
    intros E. apply (proj1 (PyTextFacts.lower_empty _)) in E.
    unfold PyText.truthy in Ht. rewrite E in Ht. discriminate.
  - cbn [filter]. rewrite Hs, truthy_lower, Ht. cbn [map].
    rewrite Hs, Hl. f_equal. exact IHi.
Qed.

(** The validator of the tags: only tags that are not empty, have no blank
    at either end and are in lower case come out, and validating them
    again changes nothing. *)
Theorem validate_tags_normal_form (v : list string) :
  Forall (fun tag => tag <> EmptyString
                     /\ PyText.strip tag = tag
                     /\ Py.lower tag = tag)
         (SnippetModel.validate_tags v)
  /\ SnippetModel.validate_tags (SnippetModel.validate_tags v)
     = SnippetModel.validate_tags v.
Proof. exact (validate_tags_normal v). Qed.

(** A snippet that the constructor returned goes through the constructor
    unchanged: reading back a stored snippet gives the same snippet. *)
Theorem init_fixed_point (fields s : Models.Snippet) :
  SnippetModel.init fields = SearchEngine.Returns _ s ->
  SnippetModel.from_db_dict s = SearchEngine.Returns _ s.
Proof.
  unfold SnippetModel.from_db_dict, SnippetModel.init.
  destruct (SnippetModel.validate_execution_mode
              (Models.execution_mode fields)) as [mode | e m] eqn:Hmode;
    [| discriminate].
  destruct (_ && _) eqn:Hlen; [| discriminate].
  intros H. injection H as <-.
  cbn [Models.id Models.name Models.content Models.language Models.tags
       Models.execution_mode Models.gist_id Models.gist_url
       Models.created_at Models.updated_at].
  unfold SnippetModel.validate_execution_mode in Hmode.
  destruct (existsb _ _) eqn:Hin; [| discriminate].
  injection Hmode as <-.
  unfold SnippetModel.validate_execution_mode. rewrite Hin, Hlen.
  destruct (validate_tags_normal (Models.tags fields)) as [_ Hi].
  now rewrite Hi.
Qed.

End SnippetModelFacts.

(** ** [database.py]: the operations on the table *)

Module DatabaseFacts.

Lemma existsb_false_filter {A : Type} (f : A -> bool) (l : list A) :
  existsb f l = false -> filter f l = [].
Proof.
  induction l as [| x xs IH]; simpl; [reflexivity |].
  intros H. apply orb_false_iff in H as [Hx Hxs].
  rewrite Hx. now apply IH.
Qed.

Lemma filter_none {A : Type} (f : A -> bool) (l : list A) :
  (forall x, In x l -> f x = false) -> filter f l = [].
Proof.
  intros H. induction l as [| x xs IH]; simpl; [reflexivity |].
  rewrite (H x (or_introl eq_refl)). apply IH.
  intros y Hy. apply H. now right.
Qed.

(** Under a unique key, selecting by the key of a stored row gives that
    row alone. *)
Lemma filter_unique_key (key : Models.Snippet -> string)
    (rows : list Models.Snippet) (row : Models.Snippet) :
  NoDup (map key rows) -> In row rows ->
  filter (fun r => (key r =? key row)%string) rows = [row].
Proof.
  induction rows as [| x xs IH]; intros Hnd Hin; [contradiction |].
  cbn [map] in Hnd. apply NoDup_cons_iff in Hnd as [Hx Hxs].
  cbn [filter]. destruct Hin as [-> | Hin].
  - rewrite String.eqb_refl. f_equal.
    apply filter_none. intros y Hy.
    apply String.eqb_neq. intros E. apply Hx. rewrite <- E.
    now apply in_map.
  - destruct (key x =? key row)%string eqn:E.
    + apply String.eqb_eq in E. exfalso. apply Hx. rewrite E.
      now apply in_map.
    + now apply IH.
Qed.

(** Looking a stored snippet up by its name or by its identifier returns
    it, and a name or identifier that no row carries returns [None]. *)
Theorem lookup_stored (rows : Database.Table) (row : Models.Snippet) :
  DbInvariant.unique_keys rows ->
  In row rows ->
  DbInvariant.validated row ->
  snd (DatabaseOps.get_by_name (Some rows) (Models.name row))
  = SearchEngine.Returns _ (Some row)
  /\ snd (DatabaseOps.get_by_id (Some rows) (Models.id row))
     = SearchEngine.Returns _ (Some row).
Proof.
  intros [Hid Hname] Hin Hvalid.
  unfold DatabaseOps.get_by_name, DatabaseOps.get_by_id,
    DatabaseOps.has_name, DatabaseOps.has_id.
  cbn [snd DatabaseOps.init_db].
  rewrite (filter_unique_key Models.name rows row Hname Hin).
  rewrite (filter_unique_key Models.id rows row Hid Hin).
  unfold DatabaseOps.from_first, SnippetModel.from_db_dict.
  unfold DbInvariant.validated in Hvalid. rewrite Hvalid. now split.
Qed.

Theorem lookup_missing (file : DatabaseOps.File) (key : string) :
  (forall row, In row (DatabaseOps.init_db file) ->
               Models.name row <> key) ->
  DatabaseOps.get_by_name file key
  = (Some (DatabaseOps.init_db file), SearchEngine.Returns _ None).
Proof.
  intros Hnone. unfold DatabaseOps.get_by_name.
  rewrite filter_none; [reflexivity |].
  intros row Hrow. apply String.eqb_neq. now apply Hnone.
Qed.

(** A snippet that [create] has accepted is found again, by name and by
    identifier, as the snippet that was given. *)
Theorem create_then_get (file : DatabaseOps.File) (s : Models.Snippet) :
  DbInvariant.validated s ->
  snd (DatabaseOps.create file s) = SearchEngine.Returns _ s ->
  snd (DatabaseOps.get_by_name (fst (DatabaseOps.create file s))
         (Models.name s))
  = SearchEngine.Returns _ (Some s)
  /\ snd (DatabaseOps.get_by_id (fst (DatabaseOps.create file s))
            (Models.id s))
     = SearchEngine.Returns _ (Some s).
Proof.
  intros Hvalid. unfold DatabaseOps.create.
  destruct (existsb _ _ || existsb _ _) eqn:Hdup; [discriminate |].
  intros _. apply orb_false_iff in Hdup as [Hid Hname].
  cbn [fst snd].
  unfold DatabaseOps.get_by_name, DatabaseOps.get_by_id.
  cbn [snd DatabaseOps.init_db].
  rewrite !filter_app, (existsb_false_filter _ _ Hid),
    (existsb_false_filter _ _ Hname).
  cbn [filter app]. unfold DatabaseOps.has_name, DatabaseOps.has_id.
  rewrite !String.eqb_refl.
  unfold DatabaseOps.from_first, SnippetModel.from_db_dict.
  unfold DbInvariant.validated in Hvalid. rewrite Hvalid. now split.
Qed.

(** A second snippet with the identifier or the name of a stored one is
    refused, and the table stays as it was. *)
Theorem create_collision (file : DatabaseOps.File)
    (s row : Models.Snippet) :
  In row (DatabaseOps.init_db file) ->
  Models.id row = Models.id s \/ Models.name row = Models.name s ->
  DatabaseOps.create file s
  = (Some (DatabaseOps.init_db file),
     SearchEngine.Raises _ "IntegrityError" EmptyString).
Proof.
  intros Hin Hkey. unfold DatabaseOps.create.
  assert (H : existsb (DatabaseOps.has_id (Models.id s))
                (DatabaseOps.init_db file)
              || existsb (DatabaseOps.has_name (Models.name s))
                   (DatabaseOps.init_db file) = true).
  { apply orb_true_iff. destruct Hkey as [E | E]; [left | right];
      apply existsb_exists; exists row; (split; [exact Hin |]);
      now apply String.eqb_eq. }
  now rewrite H.
Qed.


(** *** The constraints of the table are kept *)

Lemma NoDup_map_filter (key : Models.Snippet -> string)
    (f : Models.Snippet -> bool) (rows : list Models.Snippet) :
  NoDup (map key rows) -> NoDup (map key (filter f rows)).
Proof.
  induction rows as [| x xs IH]; intros Hnd; [constructor |].
  cbn [map] in Hnd. apply NoDup_cons_iff in Hnd as [Hx Hxs].
  cbn [filter]. destruct (f x); [| now apply IH].
  cbn [map]. constructor; [| now apply IH].
  intros Hin. apply Hx. apply in_map_iff in Hin as [y [Hy Hin]].
  apply filter_In in Hin as [Hin _]. rewrite <- Hy. now apply in_map.
Qed.

Lemma NoDup_map_snoc (key : Models.Snippet -> string)
    (rows : list Models.Snippet) (s : Models.Snippet) :
  NoDup (map key rows) ->
  existsb (fun r => (key r =? key s)%string) rows = false ->
  NoDup (map key (rows ++ [s])).
Proof.
  intros Hnd Hnew. rewrite map_app. cbn [map].
  apply NoDup_app; [exact Hnd | repeat constructor; intros [] |].
  intros k Hk [<- | []].
  apply in_map_iff in Hk as [r [Hr Hin]].
  assert (H : existsb (fun r => (key r =? key s)%string) rows = true)
    by (apply existsb_exists; exists r; split;
        [exact Hin | now apply String.eqb_eq]).
  rewrite H in Hnew. discriminate.
Qed.

(** The rows after an [UPDATE] of the row with identifier [i]. *)
Lemma update_rows_ids (data : Models.Snippet) (i : string)
    (rows : list Models.Snippet) :
  map Models.id
    (map (fun row => if DatabaseOps.has_id i row
                     then DatabaseOps.set_columns data row else row) rows)
  = map Models.id rows.
Proof.
  induction rows as [| x xs IH]; [reflexivity |].
  cbn [map]. rewrite IH. now destruct (DatabaseOps.has_id i x).
Qed.

Lemma update_rows_untouched (data : Models.Snippet) (i : string)
    (rows : list Models.Snippet) :
  (forall row, In row rows -> Models.id row <> i) ->
  map (fun row => if DatabaseOps.has_id i row
                  then DatabaseOps.set_columns data row else row) rows
  = rows.
Proof.
  intros Hnone. induction rows as [| x xs IH]; [reflexivity |].
  cbn [map]. unfold DatabaseOps.has_id at 1.
  assert (E : (Models.id x =? i)%string = false)
    by (apply String.eqb_neq, Hnone; now left).
  rewrite E, IH; [reflexivity |].
  intros row Hrow. apply Hnone. now right.
Qed.

Lemma update_rows_names (data : Models.Snippet) (i : string)
    (rows : list Models.Snippet) :
  NoDup (map Models.id rows) ->
  NoDup (map Models.name rows) ->
  (forall row, In row rows -> Models.id row <> i ->
               Models.name row <> Models.name data) ->
  NoDup
    (map Models.name
       (map (fun row => if DatabaseOps.has_id i row
                        then DatabaseOps.set_columns data row else row)
            rows)).
Proof.
  induction rows as [| x xs IH]; intros Hid Hname Hclash; [constructor |].
  cbn [map] in Hid, Hname.
  apply NoDup_cons_iff in Hid as [Hxid Hid].
  apply NoDup_cons_iff in Hname as [Hxname Hname].
  assert (Hclash' : forall row, In row xs -> Models.id row <> i ->
                                Models.name row <> Models.name data)
    by (intros row Hrow; apply Hclash; now right).
  cbn [map]. unfold DatabaseOps.has_id at 1.
  destruct (Models.id x =? i)%string eqn:E.
  - apply String.eqb_eq in E.
    assert (Hothers : forall row, In row xs -> Models.id row <> i).
    { intros row Hrow Hi. apply Hxid. rewrite E, <- Hi.
      now apply in_map. }
    rewrite (update_rows_untouched data i xs Hothers).
    cbn [DatabaseOps.set_columns Models.name].
    constructor; [| exact Hname].
    intros Hin. apply in_map_iff in Hin as [row [Hn Hrow]].
    now apply (Hclash' row Hrow (Hothers row Hrow)).
  - apply String.eqb_neq in E.
    constructor; [| now apply IH].
    intros Hin. apply in_map_iff in Hin as [r [Hn Hr]].
    apply in_map_iff in Hr as [row [Hr Hrow]].
    destruct (DatabaseOps.has_id i row) eqn:Ei; subst r.
    + cbn [DatabaseOps.set_columns Models.name] in Hn.
      apply (Hclash x (or_introl eq_refl) E). now symmetry.
    + apply Hxname. rewrite <- Hn. now apply in_map.
Qed.

(** Whatever [create], [update], [delete] and [delete_by_name] do, no two
    rows ever share an identifier or a name. *)
Theorem unique_keys_kept (file : DatabaseOps.File) (s : Models.Snippet)
    (now key : string) :
  DbInvariant.unique_keys (DatabaseOps.init_db file) ->
  DbInvariant.unique_keys
    (DatabaseOps.init_db (fst (DatabaseOps.create file s)))
  /\ DbInvariant.unique_keys
       (DatabaseOps.init_db (fst (DatabaseOps.update file s now)))
  /\ DbInvariant.unique_keys
       (DatabaseOps.init_db (fst (DatabaseOps.delete file key)))
  /\ DbInvariant.unique_keys
       (DatabaseOps.init_db (fst (DatabaseOps.delete_by_name file key))).
Proof.
  intros [Hid Hname]. repeat split.
  - unfold DatabaseOps.create.
    destruct (existsb _ _ || existsb _ _) eqn:Hdup; [exact Hid |].
    apply orb_false_iff in Hdup as [Hi _].
    now apply (NoDup_map_snoc Models.id).
  - unfold DatabaseOps.create.
    destruct (existsb _ _ || existsb _ _) eqn:Hdup; [exact Hname |].
    apply orb_false_iff in Hdup as [_ Hn].
    now apply (NoDup_map_snoc Models.name).
  - unfold DatabaseOps.update. destruct file as [rows |]; [| constructor].
    destruct (existsb _ _ && existsb _ _); [exact Hid |].
    cbn [fst DatabaseOps.init_db]. now rewrite update_rows_ids.
  - unfold DatabaseOps.update. destruct file as [rows |]; [| constructor].
    cbn [DatabaseOps.init_db] in Hid, Hname.
    destruct (existsb (DatabaseOps.has_id _) rows) eqn:Hhas.
    + destruct (existsb (fun row => negb _ && _) rows) eqn:Hclash;
        [exact Hname |].
      cbn [andb fst DatabaseOps.init_db].
      apply update_rows_names; [exact Hid | exact Hname |].
      intros row Hrow Hi Hn.
      assert (H : existsb
                    (fun row =>
                       negb (DatabaseOps.has_id
                               (Models.id (DatabaseOps.touch s now)) row)
                       && DatabaseOps.has_name
                            (Models.name (DatabaseOps.touch s now)) row)
                    rows = true).
      { apply existsb_exists. exists row. split; [exact Hrow |].
        apply andb_true_iff. split.
        - apply negb_true_iff, String.eqb_neq, Hi.
        - now apply String.eqb_eq. }
      rewrite H in Hclash. discriminate.
    + cbn [andb fst DatabaseOps.init_db].
      rewrite update_rows_untouched; [exact Hname |].
      intros row Hrow Hi.
      assert (H : existsb
                    (DatabaseOps.has_id
                       (Models.id (DatabaseOps.touch s now))) rows = true)
        by (apply existsb_exists; exists row; split;
            [exact Hrow | now apply String.eqb_eq]).
      rewrite H in Hhas. discriminate.
  - unfold DatabaseOps.delete. destruct file as [rows |]; [| constructor].
    now apply NoDup_map_filter.
  - unfold DatabaseOps.delete. destruct file as [rows |]; [| constructor].
    now apply NoDup_map_filter.
  - unfold DatabaseOps.delete_by_name.
    destruct file as [rows |]; [| constructor].
    now apply NoDup_map_filter.
  - unfold DatabaseOps.delete_by_name.
    destruct file as [rows |]; [| constructor].
    now apply NoDup_map_filter.
Qed.

(** [delete] says whether a row went, that identifier is then no longer
    found, and the rows of any other identifier stay. *)
Theorem delete_then_get (rows : Database.Table) (key : string) :
  snd (DatabaseOps.delete (Some rows) key)
  = SearchEngine.Returns _ (existsb (DatabaseOps.has_id key) rows)
  /\ snd (DatabaseOps.get_by_id
            (fst (DatabaseOps.delete (Some rows) key)) key)
     = SearchEngine.Returns _ None
  /\ forall row, Models.id row <> key ->
       (In row (DatabaseOps.init_db
                  (fst (DatabaseOps.delete (Some rows) key)))
        <-> In row rows).
Proof.
  unfold DatabaseOps.delete. cbn [fst snd]. repeat split.
  - f_equal. induction rows as [| x xs IH]; [reflexivity |].
    cbn [filter existsb]. destruct (DatabaseOps.has_id key x);
      [reflexivity | exact IH].
  - unfold DatabaseOps.get_by_id. cbn [snd DatabaseOps.init_db].
    rewrite filter_none; [reflexivity |].
    intros row Hrow. apply filter_In in Hrow as [_ Hrow].
    now apply negb_true_iff.
  - cbn [DatabaseOps.init_db]. intros Hin.
    now apply filter_In in Hin.
  - cbn [DatabaseOps.init_db]. intros Hin. apply filter_In.
    split; [exact Hin |].
    now apply negb_true_iff, String.eqb_neq.
Qed.

(** An [update] of a snippet whose identifier no row carries changes no
    row, raises nothing and returns the snippet with the new time. *)
Theorem update_missing_id (rows : Database.Table) (s : Models.Snippet)
    (now : string) :
  (forall row, In row rows -> Models.id row <> Models.id s) ->
  DatabaseOps.update (Some rows) s now
  = (Some rows, SearchEngine.Returns _ (DatabaseOps.touch s now)).
Proof.
  intros Hnone. unfold DatabaseOps.update.
  assert (H : existsb
                (DatabaseOps.has_id (Models.id (DatabaseOps.touch s now)))
                rows = false).
  { destruct (existsb _ rows) eqn:E; [| reflexivity].
    apply existsb_exists in E as [row [Hrow E]].
    apply String.eqb_eq in E. now apply Hnone in Hrow. }
  rewrite H. cbn [andb].
  now rewrite update_rows_untouched.
Qed.

End DatabaseFacts.

(** ** [database.py]: updates, listing and the tag counts *)

Module TableFacts.

Lemma validated_set_columns (data row : Models.Snippet) :
  DbInvariant.validated data ->
  DbInvariant.validated (DatabaseOps.set_columns data row).
Proof.
  unfold DbInvariant.validated, SnippetModel.init.
  cbn [DatabaseOps.set_columns Models.id Models.name Models.content
       Models.language Models.tags Models.execution_mode Models.gist_id
       Models.gist_url Models.created_at Models.updated_at].
  destruct (SnippetModel.validate_execution_mode
              (Models.execution_mode data)) as [mode | e m];
    [| discriminate].
  destruct (_ && _); [| discriminate].
  intros H. injection H as H.
  pose proof (f_equal Models.tags H) as Htags.
  pose proof (f_equal Models.execution_mode H) as Hmode.
  cbn in Htags, Hmode. now rewrite Htags, Hmode.
Qed.

Lemma from_rows_validated (rows : list Models.Snippet) :
  Forall DbInvariant.validated rows ->
  DatabaseOps.from_rows rows = SearchEngine.Returns _ rows.
Proof.
  induction 1 as [| row rest Hrow Hrest IH]; [reflexivity |].
  cbn [DatabaseOps.from_rows]. unfold SnippetModel.from_db_dict.
  unfold DbInvariant.validated in Hrow. now rewrite Hrow, IH.
Qed.

Lemma update_row_found (rows : Database.Table) (s old : Models.Snippet)
    (now : string) :
  DbInvariant.unique_keys rows ->
  In old rows -> Models.id old = Models.id s ->
  (forall row, In row rows -> Models.id row <> Models.id s ->
               Models.name row <> Models.name s) ->
  DbInvariant.validated (DatabaseOps.touch s now) ->
  snd (DatabaseOps.update (Some rows) s now)
  = SearchEngine.Returns _ (DatabaseOps.touch s now)
  /\ snd (DatabaseOps.get_by_id
            (fst (DatabaseOps.update (Some rows) s now)) (Models.id s))
     = SearchEngine.Returns _
         (Some (DatabaseOps.set_columns (DatabaseOps.touch s now) old)).
Proof.
  intros [Hid Hname] Hold Hsame Hclash Hvalid.
  unfold DatabaseOps.update.
  assert (Hno : existsb
                  (fun row =>
                     negb (DatabaseOps.has_id
                             (Models.id (DatabaseOps.touch s now)) row)
                     && DatabaseOps.has_name
                          (Models.name (DatabaseOps.touch s now)) row)
                  rows = false).
  { destruct (existsb _ rows) eqn:E; [| reflexivity].
    apply existsb_exists in E as [row [Hrow E]].
    apply andb_true_iff in E as [Ei En].
    apply negb_true_iff, String.eqb_neq in Ei.
    apply String.eqb_eq in En.
    now apply (Hclash row Hrow) in Ei. }
  rewrite Hno, andb_false_r. cbn [fst snd]. split; [reflexivity |].
  unfold DatabaseOps.get_by_id. cbn [snd DatabaseOps.init_db].
  set (rows' := map _ rows).
  assert (Hin : In (DatabaseOps.set_columns (DatabaseOps.touch s now) old)
                  rows').
  { apply in_map_iff. exists old. split; [| exact Hold].
    unfold DatabaseOps.has_id. cbn [DatabaseOps.touch Models.id].
    apply String.eqb_eq in Hsame. now rewrite Hsame. }
  assert (Hid' : NoDup (map Models.id rows'))
    by (subst rows'; now rewrite DatabaseFacts.update_rows_ids).
  pose proof (DatabaseFacts.filter_unique_key Models.id rows' _ Hid' Hin)
    as Hone.
  cbn [DatabaseOps.set_columns Models.id] in Hone. rewrite Hsame in Hone.
  unfold DatabaseOps.has_id. rewrite Hone.
  unfold DatabaseOps.from_first, SnippetModel.from_db_dict.
  now rewrite (validated_set_columns _ old Hvalid).
Qed.

(** After an [update] that found its row, the identifier leads to the new
    columns with the creation time the row had. *)
Theorem update_then_get (rows : Database.Table) (s old : Models.Snippet)
    (now : string) :
  DbInvariant.unique_keys rows ->
  In old rows -> Models.id old = Models.id s ->
  (forall row, In row rows -> Models.id row <> Models.id s ->
               Models.name row <> Models.name s) ->
  DbInvariant.validated (DatabaseOps.touch s now) ->
  snd (DatabaseOps.update (Some rows) s now)
  = SearchEngine.Returns _ (DatabaseOps.touch s now)
  /\ snd (DatabaseOps.get_by_id
            (fst (DatabaseOps.update (Some rows) s now)) (Models.id s))
     = SearchEngine.Returns _
         (Some (DatabaseOps.set_columns (DatabaseOps.touch s now) old)).
Proof. exact (update_row_found rows s old now). Qed.

(** *** Newest first *)

Lemma ltb_asym (a b : string) :
  String.ltb a b = true -> String.ltb b a = false.
Proof.
  unfold String.ltb. rewrite (String.compare_antisym b a).
  now destruct (String.compare a b).
Qed.

Lemma insert_desc_first {A : Type} (lt : A -> A -> bool)
    (x : A) (l : list A) :
  (forall y, In y l -> lt x y = false) ->
  Py.insert_desc lt x l = x :: l.
Proof.
  intros H. destruct l as [| y ys]; [reflexivity |].
  simpl. now rewrite (H y (or_introl eq_refl)).
Qed.

(** An element above all the others comes out first. *)
Lemma sort_desc_greatest_first {A : Type} (lt : A -> A -> bool)
    (l1 l2 : list A) (x : A) :
  (forall y, In y (l1 ++ l2) -> lt y x = true /\ lt x y = false) ->
  exists rest, Py.sort_desc lt (l1 ++ x :: l2) = x :: rest.
Proof.
  induction l1 as [| y l1 IH]; intros Hmax.
  - exists (Py.sort_desc lt l2). cbn [app Py.sort_desc fold_right].
    apply insert_desc_first. intros y Hy.
    apply PyFacts.sort_desc_In in Hy. now apply Hmax.
  - destruct IH as [rest E].
    { intros z Hz. apply Hmax. now right. }
    exists (Py.insert_desc lt y rest).
    cbn [app Py.sort_desc fold_right].
    change (fold_right (Py.insert_desc lt) [] (l1 ++ x :: l2))
      with (Py.sort_desc lt (l1 ++ x :: l2)).
    rewrite E. cbn [Py.insert_desc].
    destruct (Hmax y (or_introl eq_refl)) as [Hy _]. now rewrite Hy.
Qed.

Lemma split_by_id (rows : list Models.Snippet) (old : Models.Snippet) :
  NoDup (map Models.id rows) -> In old rows ->
  exists before after,
    rows = before ++ old :: after
    /\ forall row, In row (before ++ after) ->
                   Models.id row <> Models.id old.
Proof.
  intros Hid Hin. destruct (in_split _ _ Hin) as [before [after ->]].
  exists before, after. split; [reflexivity |].
  intros row Hrow E.
  rewrite map_app in Hid. cbn [map] in Hid.
  apply NoDup_remove_2 in Hid. apply Hid.
  rewrite <- map_app, <- E. now apply in_map.
Qed.

(** After an [update] with a time later than that of every other row, the
    listing starts with the updated snippet. *)
Theorem update_lists_first (rows : Database.Table)
    (s old : Models.Snippet) (now : string) :
  DbInvariant.unique_keys rows ->
  Forall DbInvariant.validated rows ->
  In old rows -> Models.id old = Models.id s ->
  (forall row, In row rows -> Models.id row <> Models.id s ->
               Models.name row <> Models.name s
               /\ String.ltb (Models.updated_at row) now = true) ->
  DbInvariant.validated (DatabaseOps.touch s now) ->
  exists rest,
    snd (DatabaseOps.list_all (fst (DatabaseOps.update (Some rows) s now)))
    = SearchEngine.Returns _
        (DatabaseOps.set_columns (DatabaseOps.touch s now) old :: rest).
Proof.
  intros Hkeys Hvalid Hold Hsame Hothers Hnew.
  assert (Hclash : forall row, In row rows ->
                     Models.id row <> Models.id s ->
                     Models.name row <> Models.name s)
    by (intros row Hrow Hi; now apply Hothers).
  destruct (update_row_found rows s old now Hkeys Hold Hsame Hclash Hnew)
    as [Hret _].
  unfold DatabaseOps.update in *.
  destruct (existsb _ rows && existsb _ rows); [discriminate |].
  cbn [fst snd]. unfold DatabaseOps.list_all.
  cbn [snd DatabaseOps.init_db].
  destruct Hkeys as [Hid _].
  destruct (split_by_id rows old Hid Hold) as [before [after [E Hrest]]].
  rewrite Hsame in Hrest.
  assert (Hb : forall row, In row before -> Models.id row <> Models.id s)
    by (intros row Hrow; apply Hrest, in_or_app; now left).
  assert (Ha : forall row, In row after -> Models.id row <> Models.id s)
    by (intros row Hrow; apply Hrest, in_or_app; now right).
  rewrite E, map_app. cbn [map].
  cbn [DatabaseOps.touch Models.id].
  rewrite (DatabaseFacts.update_rows_untouched _ _ before Hb).
  rewrite (DatabaseFacts.update_rows_untouched _ _ after Ha).
  unfold DatabaseOps.has_id.
  apply String.eqb_eq in Hsame. rewrite Hsame.
  unfold Database.order_by_updated_at_desc.
  destruct (sort_desc_greatest_first
              (fun x y => String.ltb (Models.updated_at x)
                            (Models.updated_at y))
              before after
              (DatabaseOps.set_columns (DatabaseOps.touch s now) old))
    as [rest Hsort].
  { intros row Hrow.
    assert (Hin : In row rows)
      by (rewrite E; apply in_app_iff; apply in_app_iff in Hrow;
          destruct Hrow; [left | right; right]; assumption).
    destruct (Hothers row Hin (Hrest row Hrow)) as [_ Hlt].
    cbn [DatabaseOps.set_columns DatabaseOps.touch Models.updated_at].
    split; [exact Hlt | now apply ltb_asym]. }
  assert (Hall : Forall DbInvariant.validated
                   (DatabaseOps.set_columns (DatabaseOps.touch s now) old
                    :: rest)).
  { rewrite <- Hsort. apply Forall_forall. intros row Hrow.
    apply PyFacts.sort_desc_In in Hrow.
    apply in_app_iff in Hrow as [Hrow | [<- | Hrow]].
    - rewrite Forall_forall in Hvalid. apply Hvalid.
      rewrite E. apply in_or_app. now left.
    - now apply validated_set_columns.
    - rewrite Forall_forall in Hvalid. apply Hvalid.
      rewrite E. apply in_or_app. right. now right. }
  exists rest. rewrite Hsort. now apply from_rows_validated.
Qed.

(** Without a filter that counts, [search] is [list_all]. *)
Theorem search_without_filters (file : DatabaseOps.File)
    (query language : option string) (tags : option (list string)) :
  Py.truthy_str query = false ->
  Py.truthy_str language = false ->
  Py.truthy_list tags = false ->
  DatabaseOps.search file query language tags = DatabaseOps.list_all file.
Proof.
  intros Hq Hl Ht.
  unfold DatabaseOps.search, DatabaseOps.list_all, Database.search.
  rewrite Hq, Hl.
  assert (Hconds :
            match tags with
            | Some (t :: ts) =>
                [fun row : Models.Snippet =>
                   existsb
                     (fun tag =>
                        Database.like
                          ("%" ++ Database.dquote ++ tag
                               ++ Database.dquote ++ "%")
                          (Database.json_dumps (Models.tags row)))
                     (t :: ts)]
            | _ => []
            end = []).
  { destruct tags as [[| t ts] |]; try reflexivity. discriminate. }
  rewrite Hconds.
  destruct query, language; cbn [app forallb]; now rewrite filter_true.
Qed.

End TableFacts.

(** ** [database.py]: the tag counts *)

Module TagCountFacts.

Lemma bump_keys (tag : string) (d : list (string * Z)) (k : string) :
  In k (map fst (DatabaseOps.bump tag d)) <-> k = tag \/ In k (map fst d).
Proof.
  induction d as [| [k' n] rest IH]; cbn [DatabaseOps.bump map fst In].
  - intuition congruence.
  - destruct (k' =? tag)%string eqn:E; cbn [map fst In].
    + apply String.eqb_eq in E. subst k'. intuition congruence.
    + rewrite IH. intuition congruence.
Qed.

Lemma bump_NoDup (tag : string) (d : list (string * Z)) :
  NoDup (map fst d) -> NoDup (map fst (DatabaseOps.bump tag d)).
Proof.
  induction d as [| [k n] rest IH]; intros Hnd;
    cbn [DatabaseOps.bump map fst].
  - repeat constructor. intros [].
  - cbn [map fst] in Hnd. apply NoDup_cons_iff in Hnd as [Hk Hrest].
    destruct (k =? tag)%string eqn:E; cbn [map fst].
    + now constructor.
    + constructor; [| now apply IH].
      intros Hin. apply bump_keys in Hin as [-> | Hin]; [| contradiction].
      now rewrite String.eqb_refl in E.
Qed.

Lemma bump_get (tag : string) (d : list (string * Z)) (k : string) :
  PyText.dict_get (DatabaseOps.bump tag d) k 0
  = PyText.dict_get d k 0 + (if (tag =? k)%string then 1 else 0).
Proof.
  induction d as [| [k' n] rest IH];
    cbn [DatabaseOps.bump PyText.dict_get].
  - destruct (tag =? k)%string; lia.
  - destruct (k' =? tag)%string eqn:E; cbn [PyText.dict_get].
    + apply String.eqb_eq in E. subst k'.
      destruct (tag =? k)%string; lia.
    + destruct (k' =? k)%string eqn:Ek; [| exact IH].
      apply String.eqb_eq in Ek. subst k'.
      rewrite String.eqb_sym, E. lia.
Qed.

Lemma bump_positive (tag : string) (d : list (string * Z)) :
  Forall (fun kv => 0 < snd kv) d ->
  Forall (fun kv => 0 < snd kv) (DatabaseOps.bump tag d).
Proof.
  induction 1 as [| [k n] rest Hk Hrest IH]; cbn [DatabaseOps.bump].
  - repeat constructor.
  - cbn [snd] in Hk. destruct (k =? tag)%string; constructor;
      cbn [snd]; try assumption; lia.
Qed.

Lemma counted_bump (d : list (string * Z)) (seen : list string)
    (tag : string) :
  DbInvariant.counted d seen ->
  DbInvariant.counted (DatabaseOps.bump tag d) (seen ++ [tag]).
Proof.
  intros [Hk Hp Hg]. split.
  - now apply bump_NoDup.
  - now apply bump_positive.
  - intros k. rewrite bump_get, Hg, count_occ_app. cbn [count_occ].
    destruct (string_dec tag k) as [-> | Hne].
    + rewrite String.eqb_refl. lia.
    + apply String.eqb_neq in Hne. rewrite Hne. lia.
Qed.

Lemma counted_tags (tags : list string) :
  forall d seen,
    DbInvariant.counted d seen ->
    DbInvariant.counted
      (fold_left (fun c tag => DatabaseOps.bump tag c) tags d)
            (seen ++ tags).
Proof.
  induction tags as [| t ts IH]; intros d seen H; cbn [fold_left].
  - now rewrite app_nil_r.
  - replace (seen ++ t :: ts) with ((seen ++ [t]) ++ ts)
      by (now rewrite <- app_assoc).
    apply IH. now apply counted_bump.
Qed.

Lemma counted_rows (rows : list Models.Snippet) :
  forall d seen,
    DbInvariant.counted d seen ->
    DbInvariant.counted
      (fold_left
         (fun counts row =>
            fold_left (fun c tag => DatabaseOps.bump tag c)
              (Models.tags row) counts)
         rows d)
      (seen ++ flat_map Models.tags rows).
Proof.
  induction rows as [| row rest IH]; intros d seen H;
    cbn [fold_left flat_map].
  - now rewrite app_nil_r.
  - rewrite app_assoc. apply IH. now apply counted_tags.
Qed.

(** Only the empty tag list is stored as the text of two brackets. *)
Lemma json_dumps_empty (tags : list string) :
  (Database.json_dumps tags =? "[]")%string = true <-> tags = [].
Proof.
  split; [| intros ->; reflexivity].
  destruct tags as [| t ts]; [reflexivity |].
  unfold Database.json_dumps. cbn [map String.concat].
  destruct (map Database.json_string ts); intros H; discriminate H.
Qed.

Lemma selected_tags (rows : list Models.Snippet) :
  flat_map Models.tags
    (filter
       (fun row =>
          negb (Database.json_dumps (Models.tags row) =? "[]")%string)
       rows)
  = flat_map Models.tags rows.
Proof.
  induction rows as [| row rest IH]; [reflexivity |].
  cbn [filter flat_map].
  destruct (Database.json_dumps (Models.tags row) =? "[]")%string eqn:E;
    cbn [negb flat_map].
  - apply json_dumps_empty in E. now rewrite E, IH.
  - now rewrite IH.
Qed.

Lemma dict_get_In (d : list (string * Z)) (k : string) (n : Z) :
  NoDup (map fst d) -> In (k, n) d -> PyText.dict_get d k 0 = n.
Proof.
  induction d as [| [k' n'] rest IH]; intros Hnd Hin; [contradiction |].
  cbn [map fst] in Hnd. apply NoDup_cons_iff in Hnd as [Hk Hrest].
  cbn [PyText.dict_get]. destruct Hin as [E | Hin].
  - injection E as -> ->. now rewrite String.eqb_refl.
  - destruct (k' =? k)%string eqn:E; [| now apply IH].
    apply String.eqb_eq in E. subst k'. exfalso. apply Hk.
    change k with (fst (k, n)). now apply in_map.
Qed.

Lemma dict_get_present (d : list (string * Z)) (k : string) :
  PyText.dict_get d k 0 <> 0 -> In (k, PyText.dict_get d k 0) d.
Proof.
  induction d as [| [k' n'] rest IH]; cbn [PyText.dict_get];
    [intros H; now contradiction H |].
  destruct (k' =? k)%string eqn:E.
  - apply String.eqb_eq in E. subst k'. now left.
  - intros H. right. now apply IH.
Qed.

(** [get_all_tags] lists every tag that some row carries exactly once,
    with the number of times it occurs in the rows, the larger counts
    first. *)
Theorem get_all_tags_counts (file : DatabaseOps.File) :
  exists result,
    snd (DatabaseOps.get_all_tags file) = SearchEngine.Returns _ result
    /\ NoDup (map fst result)
    /\ Sorted (fun x y => snd y <= snd x) result
    /\ forall tag n,
         In (tag, n) result <->
         n = Z.of_nat
               (count_occ string_dec
                  (flat_map Models.tags (DatabaseOps.init_db file)) tag)
         /\ 0 < n.
Proof.
  unfold DatabaseOps.get_all_tags. cbn [snd].
  set (rows := DatabaseOps.init_db file).
  set (counts := fold_left _ _ []).
  assert (Hc : DbInvariant.counted counts (flat_map Models.tags rows)).
  { subst counts. rewrite <- selected_tags.
    apply (counted_rows _ [] []). split; [constructor | constructor |].
    intros k. reflexivity. }
  destruct Hc as [Hk Hp Hg].
  eexists. split; [reflexivity |]. split; [| split].
  - eapply Permutation_NoDup; [| exact Hk].
    apply Permutation_map, Permutation_sym, PyFacts.sort_desc_perm.
  - apply (PyFacts.sort_desc_sorted snd).
  - intros tag n. rewrite PyFacts.sort_desc_In. split.
    + intros Hin. split.
      * rewrite <- Hg. symmetry. now apply dict_get_In.
      * rewrite Forall_forall in Hp. now apply (Hp (tag, n)).
    + intros [-> Hpos]. rewrite <- Hg. apply dict_get_present.
      rewrite Hg. lia.
Qed.

End TagCountFacts.

(** ** [Database.search]: what the filters select and in which order *)

Module SelectionFacts.

(** *** Texts that hold the query *)



Lemma fold_all_app (a b : string) :
  DbInvariant.fold_all (a ++ b)
  = (DbInvariant.fold_all a ++ DbInvariant.fold_all b)%string.
Proof. induction a as [| c a IH]; simpl; [reflexivity | now rewrite IH]. Qed.







(** The language filter is an exact comparison. *)
Theorem search_language_exact (rows : Database.Table) (l : string)
    (s : Models.Snippet) :
  l <> EmptyString ->
  (In s (Database.search rows None (Some l) None)
   <-> In s rows /\ Models.language s = l).
Proof.
  intros Hl. unfold Database.search, Py.truthy_str.
  apply String.eqb_neq in Hl. rewrite Hl. cbn [negb app forallb].
  rewrite StoreFacts.order_by_In, filter_In, andb_true_r, String.eqb_eq.
  reflexivity.
Qed.

(** *** The order of the texts of the timestamps *)

Lemma ascii_compare_refl (a : ascii) : Ascii.compare a a = Eq.
Proof. unfold Ascii.compare. apply N.compare_refl. Qed.

Lemma ascii_compare_eq (a b : ascii) : Ascii.compare a b = Eq -> a = b.
Proof.
  unfold Ascii.compare. intros H. apply N.compare_eq in H.
  rewrite <- (ascii_N_embedding a), <- (ascii_N_embedding b). now rewrite H.
Qed.

Lemma ascii_compare_lt_trans (a b c : ascii) :
  Ascii.compare a b = Lt -> Ascii.compare b c = Lt ->
  Ascii.compare a c = Lt.
Proof.
  unfold Ascii.compare. rewrite !N.compare_lt_iff. lia.
Qed.

(** [x <= y] and [y <= z] give [x <= z], with [<=] read off [compare]. *)
Lemma compare_not_gt_trans (x : string) :
  forall y z,
    String.compare x y <> Gt -> String.compare y z <> Gt ->
    String.compare x z <> Gt.
Proof.
  induction x as [| a x IH]; intros y z Hxy Hyz.
  - destruct z; discriminate.
  - destruct y as [| b y]; [now contradiction Hxy |].
    destruct z as [| c z]; [now contradiction Hyz |].
    cbn [String.compare] in *.
    destruct (Ascii.compare a b) eqn:Eab;
      destruct (Ascii.compare b c) eqn:Ebc;
      try (now contradiction Hxy); try (now contradiction Hyz).
    + apply ascii_compare_eq in Eab, Ebc. subst b c.
      rewrite ascii_compare_refl. now apply (IH y z).
    + apply ascii_compare_eq in Eab. subst b. rewrite Ebc. discriminate.
    + apply ascii_compare_eq in Ebc. subst c. rewrite Eab. discriminate.
    + rewrite (ascii_compare_lt_trans a b c Eab Ebc). discriminate.
Qed.

Lemma not_older_trans (x y z : Models.Snippet) :
  DbInvariant.not_older x y -> DbInvariant.not_older y z ->
  DbInvariant.not_older x z.
Proof.
  unfold DbInvariant.not_older, String.ltb. intros Hxy Hyz.
  assert (Hzy : String.compare (Models.updated_at z) (Models.updated_at y)
                <> Gt).
  { rewrite String.compare_antisym.
    destruct (String.compare (Models.updated_at y) (Models.updated_at z));
      cbn; congruence. }
  assert (Hyx : String.compare (Models.updated_at y) (Models.updated_at x)
                <> Gt).
  { rewrite String.compare_antisym.
    destruct (String.compare (Models.updated_at x) (Models.updated_at y));
      cbn; congruence. }
  pose proof (compare_not_gt_trans _ _ _ Hzy Hyx) as Hzx.
  rewrite String.compare_antisym.
  destruct (String.compare (Models.updated_at z) (Models.updated_at x));
    cbn; congruence.
Qed.

Lemma insert_by_time_sorted (x : Models.Snippet)
    (l : list Models.Snippet) :
  Sorted DbInvariant.not_older l ->
  Sorted DbInvariant.not_older
    (Py.insert_desc
       (fun a b => String.ltb (Models.updated_at a) (Models.updated_at b))
       x l).
Proof.
  induction 1 as [| y ys Hs IH Hhd]; simpl.
  - repeat constructor.
  - destruct (String.ltb (Models.updated_at x) (Models.updated_at y)) eqn:E.
    + constructor; [exact IH |].
      destruct ys as [| z zs]; simpl.
      * constructor. now apply TableFacts.ltb_asym.
      * inversion Hhd; subst.
        destruct (String.ltb (Models.updated_at x) (Models.updated_at z));
          constructor; [assumption | now apply TableFacts.ltb_asym].
    + constructor; [now constructor | now constructor].
Qed.

(** Whatever the filters, the rows come newest first: no row is older than
    any row that follows it. *)
Theorem search_newest_first (rows : Database.Table)
    (query language : option string) (tags : option (list string)) :
  StronglySorted DbInvariant.not_older
    (Database.search rows query language tags).
Proof.
  unfold Database.search, Database.order_by_updated_at_desc.
  apply Sorted_StronglySorted.
  - intros x y z. apply not_older_trans.
  - induction (filter _ rows) as [| x xs IH]; simpl.
    + constructor.
    + now apply insert_by_time_sorted.
Qed.

End SelectionFacts.

(** ** [runner.py] and [config.py] *)

Module RunnerFacts.

Section WithOracles.
Context (guess_lexer : string -> option string) (which : string -> bool).

Lemma by_shebang_values (content language : string) :
  SnippetRunner.by_shebang content = Some language ->
  In language ["python"; "bash"; "javascript"; "ruby"].
Proof.
  unfold SnippetRunner.by_shebang.
  destruct (PyLines.split_lines _) as [| first rest]; [discriminate |].
  destruct (prefix "#!" first); [| discriminate].
  destruct (Py.contains "python" _);
    [intros H; injection H as <-; simpl; tauto |].
  destruct (_ || _); [intros H; injection H as <-; simpl; tauto |].
  destruct (Py.contains "node" _);
    [intros H; injection H as <-; simpl; tauto |].
  destruct (Py.contains "ruby" _);
    [intros H; injection H as <-; simpl; tauto | discriminate].
Qed.

(** The detected language is always in lower case, so that [can_execute]
    looks up the very string that [detect_language] returned. *)
Theorem detect_language_lower (snippet : Models.Snippet) :
  Py.lower (SnippetRunner.detect_language guess_lexer snippet)
  = SnippetRunner.detect_language guess_lexer snippet.
Proof.
  unfold SnippetRunner.detect_language.
  destruct (_ && _); [apply PyTextFacts.lower_idem |].
  destruct (SnippetRunner.by_shebang _) as [language |] eqn:E.
  - apply by_shebang_values in E.
    repeat (destruct E as [<- | E]; [reflexivity |]). contradiction.
  - unfold SnippetRunner.by_lexer.
    destruct (guess_lexer _) as [name |]; [| reflexivity].
    destruct (Py.contains "python" _); [reflexivity |].
    destruct (_ || _); [reflexivity |].
    destruct (Py.contains "javascript" _); [reflexivity |].
    destruct (Py.contains "ruby" _); [reflexivity |].
    apply PyTextFacts.lower_idem.
Qed.


(** [can_execute] does not look at the case of the language, and its two
    results agree: there is a message exactly when the answer is no. *)
Theorem can_execute_consistent (language : string) :
  SnippetRunner.can_execute which (Py.lower language)
  = SnippetRunner.can_execute which language
  /\ (fst (SnippetRunner.can_execute which language) = true
      <-> snd (SnippetRunner.can_execute which language) = None).
Proof.
  unfold SnippetRunner.can_execute. rewrite PyTextFacts.lower_idem.
  split; [reflexivity |].
  destruct (negb (PyText.dict_mem _ _)); cbn [fst snd];
    [split; discriminate |].
  destruct (negb (which _)); cbn [fst snd]; split;
    try discriminate; reflexivity.
Qed.

End WithOracles.

End RunnerFacts.

Module ConfigFacts.

Lemma or_else_truthy (x : option string) (y : string) :
  PyText.truthy y = true ->
  PyText.truthy (ConfigManager.or_else x y) = true.
Proof.
  intros Hy. destruct x as [s |]; cbn; [| exact Hy].
  destruct (PyText.truthy s) eqn:E; [exact E | exact Hy].
Qed.

(** The editor command is never the empty string, whatever the
    configuration and the environment hold; a configured editor that is not
    empty wins over the environment. *)
Theorem get_editor_not_empty (config_editor : option string)
    (environ : string -> option string) :
  ConfigManager.get_editor config_editor environ <> EmptyString
  /\ forall editor,
       config_editor = Some editor -> editor <> EmptyString ->
       ConfigManager.get_editor config_editor environ = editor.
Proof.
  assert (Henv : PyText.truthy
                   (ConfigManager.or_else (environ "VISUAL")
                      (ConfigManager.or_else (environ "EDITOR") "vim"))
                 = true)
    by (apply or_else_truthy, or_else_truthy; reflexivity).
  split.
  - intros E. unfold ConfigManager.get_editor in E.
    destruct config_editor as [editor |].
    + destruct (PyText.truthy editor) eqn:Ht.
      * rewrite E in Ht. discriminate.
      * rewrite E in Henv. discriminate.
    + rewrite E in Henv. discriminate.
  - intros editor -> Hne. unfold ConfigManager.get_editor, PyText.truthy.
    apply String.eqb_neq in Hne. now rewrite Hne.
Qed.

End ConfigFacts.

(** ** [editor.py]: the text that comes back from the editor *)

Module EditorFacts.

(** *** Lines *)

Lemma split_char_cons (sep : ascii) (s : string) :
  exists piece pieces, PyLines.split_char sep s = piece :: pieces.
Proof.
  induction s as [| c t [piece [pieces IH]]]; cbn [PyLines.split_char].
  - now exists EmptyString, [].
  - destruct (c =? sep)%char; [now eexists; eexists |].
    rewrite IH. now eexists; eexists.
Qed.

Lemma no_char_app (c : ascii) (a b : string) :
  TextShape.no_char c (a ++ b)
  = TextShape.no_char c a && TextShape.no_char c b.
Proof.
  induction a as [| d a IH]; cbn; [reflexivity |].
  now rewrite IH, andb_assoc.
Qed.


(** The first line of a text ends at its first line feed. *)
Lemma split_first_line (a b : string) :
  TextShape.no_char PyLines.newline_char a = true ->
  PyLines.split_lines (a ++ String PyLines.newline_char b)
  = a :: PyLines.split_lines b.
Proof.
  unfold PyLines.split_lines.
  induction a as [| d a IH]; cbn [append PyLines.split_char TextShape.no_char];
    intros H.
  - now rewrite Ascii.eqb_refl.
  - apply andb_true_iff in H as [Hd Ha].
    apply negb_true_iff in Hd. rewrite Hd, (IH Ha). reflexivity.
Qed.

Lemma concat_cons (sep x y : string) (l : list string) :
  String.concat sep (x :: y :: l)
  = (x ++ sep ++ String.concat sep (y :: l))%string.
Proof. reflexivity. Qed.

(** Joining the lines of a text gives the text back. *)
Lemma join_split_lines (s : string) :
  PyLines.join_lines (PyLines.split_lines s) = s.
Proof.
  unfold PyLines.join_lines, PyLines.split_lines.
  induction s as [| c t IH]; [reflexivity |].
  cbn [PyLines.split_char].
  destruct (split_char_cons PyLines.newline_char t) as [piece [pieces E]].
  rewrite E in *.
  destruct (c =? PyLines.newline_char)%char eqn:Ec.
  - apply Ascii.eqb_eq in Ec. subst c.
    rewrite concat_cons, IH. reflexivity.
  - destruct pieces as [| p ps].
    + cbn in *. now rewrite IH.
    + rewrite concat_cons in *. cbn [append]. now rewrite IH.
Qed.

(** *** Blanks at the ends *)








(** *** The comment marks *)

Lemma dict_get_cases {V : Type} (d : list (string * V)) (k : string)
    (default : V) :
  PyText.dict_get d k default = default
  \/ In (PyText.dict_get d k default) (map snd d).
Proof.
  induction d as [| [k' v] rest IH]; cbn; [now left |].
  destruct (k' =? k)%string; [right; now left |].
  destruct IH as [IH | IH]; [now left | right; now right].
Qed.


(** *** [edit_content] *)



Section WithEditor.
Context (run_editor : string -> string -> option string).

(** What [edit_content] returns is never blank: it is a text without
    blanks at its ends, followed by one line feed. *)
Theorem edit_content_shape (editor content extension : string)
    (message : option string) (result : string) :
  EditorManager.edit_content run_editor editor content extension message
  = SearchEngine.Returns _ (Some result) ->
  exists body,
    result = (body ++ PyLines.newline)%string
    /\ body <> EmptyString
    /\ PyText.strip body = body.
Proof.
  unfold EditorManager.edit_content.
  destruct (run_editor _ _) as [read_back |]; [| discriminate].
  set (edited := match message with Some _ => _ | None => _ end).
  destruct (negb (PyText.truthy edited)
            || negb (PyText.truthy (PyText.strip edited))) eqn:E;
    [discriminate |].
  intros H. injection H as <-.
  exists (PyText.strip edited). split; [reflexivity |].
  apply orb_false_iff in E as [_ E]. apply negb_false_iff in E.
  split; [| apply PyTextFacts.strip_idem].
  intros H. rewrite H in E. discriminate.
Qed.


Lemma append_empty (s : string) : (s ++ EmptyString)%string = s.
Proof. induction s as [| c s IH]; cbn; [reflexivity | now rewrite IH]. Qed.

Lemma lstrip_app_solid (l x : string) :
  PyText.lstrip l <> EmptyString ->
  PyText.lstrip (l ++ x) = (PyText.lstrip l ++ x)%string.
Proof.
  induction l as [| c l IH]; cbn; [intros H; now contradiction H |].
  destruct (PyText.isspace_char c); [exact IH | reflexivity].
Qed.

(** A text whose first line is not blank is not blank. *)
Lemma strip_first_line_truthy (first : string) (others : list string) :
  TextShape.blank first = false ->
  PyText.truthy (PyText.strip (PyLines.join_lines (first :: others)))
  = true.
Proof.
  intros Hb.
  assert (Hl : PyText.lstrip first <> EmptyString).
  { intros E. unfold TextShape.blank, PyText.strip in Hb.
    rewrite E in Hb. discriminate Hb. }
  assert (Hj : exists x, PyLines.join_lines (first :: others)
                         = (first ++ x)%string).
  { unfold PyLines.join_lines. destruct others as [| o os].
    - exists EmptyString. cbn [String.concat].
      symmetry. apply append_empty.
    - eexists. apply concat_cons. }
  destruct Hj as [x ->]. unfold PyText.strip.
  rewrite (lstrip_app_solid _ _ Hl).
  destruct (PyTextFacts.lstrip_head first) as [E | [c [t [E Hc]]]];
    [contradiction |].
  rewrite E. cbn [append].
  destruct (PyTextFacts.rstrip_head c (t ++ x) Hc) as [t' ->].
  reflexivity.
Qed.

(** With a message, a comment line at the top of the text that the editor
    left is taken for a message line and dropped, also when it is a line of
    the content itself, such as the interpreter line of a script. *)
Theorem edit_content_drops_comment_line
    (editor content extension message line rest first : string)
    (others : list string) :
  message <> EmptyString ->
  run_editor editor (EditorManager.header extension message ++ content)
  = Some (line ++ String PyLines.newline_char rest)%string ->
  TextShape.no_char PyLines.newline_char line = true ->
  prefix (EditorManager._get_comment_char extension) (PyText.strip line)
  = true ->
  PyLines.split_lines rest = first :: others ->
  prefix (EditorManager._get_comment_char extension) (PyText.strip first)
  = false ->
  TextShape.blank first = false ->
  EditorManager.edit_content run_editor editor content extension
    (Some message)
  = SearchEngine.Returns _ (Some (PyText.strip rest ++ PyLines.newline)%string).
Proof.
  intros Hmsg Hrun Hline Hcomment Hsplit Hfirst Hblank.
  unfold EditorManager.edit_content.
  assert (Ht : PyText.truthy message = true)
    by (unfold PyText.truthy; apply negb_true_iff;
        now apply String.eqb_neq).
  rewrite Ht, Hrun.
  assert (Hrem : EditorManager.remove_header extension
                   (line ++ String PyLines.newline_char rest) = rest).
  { unfold EditorManager.remove_header.
    rewrite (split_first_line _ _ Hline), Hsplit.
    cbn [PyLines.pop_while]. rewrite Hcomment, Hfirst.
    cbn [PyLines.pop_while].
    change (negb (PyText.truthy (PyText.strip first)))
      with (TextShape.blank first).
    rewrite Hblank, <- Hsplit. apply join_split_lines. }
  rewrite Hrem.
  assert (Hs : PyText.truthy (PyText.strip rest) = true).
  { rewrite <- (join_split_lines rest), Hsplit.
    now apply strip_first_line_truthy. }
  assert (Hr : PyText.truthy rest = true).
  { destruct rest; [discriminate Hs | reflexivity]. }
  now rewrite Hr, Hs.
Qed.

End WithEditor.

End EditorFacts.

(** ** The ranking engine: what every result is *)

Module ResultFacts.

Section WithFuzz.
Context {F : Fuzz}.

Lemma firstn_subset {A : Type} (n : nat) (l : list A) (x : A) :
  In x (firstn n l) -> In x l.
Proof.
  intros H. rewrite <- (firstn_skipn n l). apply in_or_app. now left.
Qed.

Lemma apply_limit_incl (results : list SearchResult) (limit : option Z)
    (r : SearchResult) :
  In r (SearchEngine.apply_limit results limit) -> In r results.
Proof.
  unfold SearchEngine.apply_limit, Py.slice_to.
  destruct limit as [n |]; [| trivial].
  destruct (Py.truthy_int (Some n)); [| trivial].
  destruct (0 <=? n); apply firstn_subset.
Qed.

(** Every result of a search with a query is a snippet that the Store
    returned for the filters, carries the score that the scoring function
    gives it, and that score is positive; this holds for every limit. *)
Theorem search_results_sound (db : Database.Table) (q : string)
    (language : option string) (tags : option (list string))
    (limit : option Z) (r : SearchResult) :
  q <> EmptyString ->
  In r (SearchEngine.search db (Some q) language tags limit) ->
  In (snippet r) (Database.search db None language tags)
  /\ score r = SearchEngine._calculate_score q (snippet r)
  /\ 0 < score r.
Proof.
  intros Hq Hin. rewrite (RankingFacts.search_query _ _ _ _ _ Hq) in Hin.
  apply apply_limit_incl in Hin.
  unfold SearchEngine.sort_results in Hin.
  apply PyFacts.sort_desc_In in Hin.
  now apply RankingFacts.score_all_In.
Qed.

(** A score is never negative and never above the larger of 100 and 70
    times the number of tags. *)
Theorem score_bounds `{!FuzzRange F} (q : string) (s : Models.Snippet) :
  0 <= SearchEngine._calculate_score q s
  <= Z.max 100 (70 * Z.of_nat (List.length (Models.tags s))).
Proof.
  split; [apply ScoringFacts.calculate_score_nonneg |].
  pose proof (ScoringFacts.calculate_score_upper q s).
  pose proof (ScoringFacts.tag_score_range (Py.lower q) (Models.tags s)).
  lia.
Qed.

(** A positive limit keeps the first results of the unlimited search, and
    no more of them than the limit says. *)
Theorem search_limit_prefix (db : Database.Table)
    (query language : option string) (tags : option (list string))
    (n : Z) :
  0 < n ->
  SearchEngine.search db query language tags (Some n)
  = firstn (Z.to_nat n) (SearchEngine.search db query language tags None)
  /\ Z.of_nat
       (List.length (SearchEngine.search db query language tags (Some n)))
     <= n.
Proof.
  intros Hn.
  rewrite (RankingFacts.search_limit_positive _ _ _ _ _ Hn).
  split; [reflexivity |].
  pose proof (firstn_le_length (Z.to_nat n)
                (SearchEngine.search db query language tags None)).
  lia.
Qed.

End WithFuzz.

End ResultFacts.

(** ** [gist.py]: from a snippet to a Gist and back *)

Module GistFacts.

(** *** The file name *)

Lemma rsplit_last_none (sep : ascii) (s : string) :
  TextShape.no_char sep s = true -> PySplit.rsplit_last sep s = None.
Proof.
  induction s as [| c t IH]; cbn; [reflexivity |].
  intros H. apply andb_true_iff in H as [Hc Ht].
  apply negb_true_iff in Hc. now rewrite (IH Ht), Hc.
Qed.

Lemma rsplit_last_extension (sep : ascii) (name ext : string) :
  TextShape.no_char sep ext = true ->
  PySplit.rsplit_last sep (name ++ String sep ext) = Some (name, ext).
Proof.
  intros H. induction name as [| c name IH]; cbn.
  - now rewrite (rsplit_last_none sep ext H), Ascii.eqb_refl.
  - now rewrite IH.
Qed.

Lemma prefix_app (n post : string) : prefix n (n ++ post) = true.
Proof.
  induction n as [| c n IH]; cbn; [now destruct post |].
  destruct (ascii_dec c c); [exact IH | contradiction].
Qed.

Lemma contains_middle (n pre post : string) :
  Py.contains n (pre ++ n ++ post) = true.
Proof.
  induction pre as [| c pre IH].
  - cbn [append]. destruct (n ++ post)%string eqn:E;
      cbn [Py.contains]; rewrite <- E, prefix_app; reflexivity.
  - cbn [append Py.contains]. rewrite IH. apply orb_true_r.
Qed.

(** Every extension is a full stop followed by a text without one. *)
Lemma extension_shape (language : string) :
  exists ext,
    SnippetModel.get_file_extension_for_language language
    = String "." ext
    /\ TextShape.no_char "." ext = true.
Proof.
  unfold SnippetModel.get_file_extension_for_language.
  assert (Hall : forallb
                   (fun e => match e with
                             | String c ext =>
                                 (c =? ".")%char && TextShape.no_char "." ext
                             | EmptyString => false
                             end)
                   (".txt" :: map snd SnippetModel.extension_map) = true)
    by (vm_compute; reflexivity).
  rewrite forallb_forall in Hall.
  set (e := PyText.dict_get _ _ _).
  assert (Hin : In e (".txt" :: map snd SnippetModel.extension_map)).
  { subst e. destruct (EditorFacts.dict_get_cases
                         SnippetModel.extension_map (Py.lower language)
                         ".txt") as [-> | H]; [now left | now right]. }
  specialize (Hall e Hin). destruct e as [| c ext]; [discriminate |].
  apply andb_true_iff in Hall as [Hc Hext].
  apply Ascii.eqb_eq in Hc. subst c. now exists ext.
Qed.

(** The name of the file of a Gist gives the name of the snippet back. *)
Lemma filename_gives_name (s : Models.Snippet) :
  (if Py.contains "." (GistManager.gist_filename s)
   then PySplit.rsplit_head "." (GistManager.gist_filename s)
   else GistManager.gist_filename s)
  = Models.name s.
Proof.
  unfold GistManager.gist_filename, SnippetModel.get_file_extension.
  destruct (extension_shape (Models.language s)) as [ext [-> Hext]].
  change (String "." ext) with ("." ++ ext)%string.
  rewrite (contains_middle "." (Models.name s) ext).
  unfold PySplit.rsplit_head. cbn [append].
  now rewrite (rsplit_last_extension "." (Models.name s) ext Hext).
Qed.

(** *** The description: the text after [Tags:] *)

Lemma split_from_cons (sep : string) (s : string) :
  forall skip, exists piece pieces,
    PySplit.split_from sep skip s = piece :: pieces.
Proof.
  induction s as [| c t IH]; intros skip; cbn [PySplit.split_from].
  - now exists EmptyString, [].
  - destruct skip as [| k]; [| apply IH].
    destruct (prefix sep (String c t)); [now eexists; eexists |].
    destruct (IH 0%nat) as [piece [pieces ->]]. now eexists; eexists.
Qed.

Lemma split_without_T (s : string) :
  TextShape.no_char "T" s = true ->
  PySplit.split_from "Tags:" 0 s = [s].
Proof.
  induction s as [| c t IH]; [reflexivity |].
  cbn [TextShape.no_char]. intros H.
  apply andb_true_iff in H as [Hc Ht].
  apply negb_true_iff, Ascii.eqb_neq in Hc.
  cbn [PySplit.split_from prefix].
  destruct (ascii_dec "T" c) as [E | _]; [now contradiction Hc |].
  now rewrite (IH Ht).
Qed.

(** Whatever stands before it, the last [Tags:] of a text ends the last
    but one piece of the split, when no capital T follows it. *)
Lemma split_tags_last (post : string) :
  TextShape.no_char "T" post = true ->
  forall pre skip,
    SplitState.inside_separator skip (pre ++ "Tags:" ++ post) ->
    exists first pieces,
      PySplit.split_from "Tags:" skip (pre ++ "Tags:" ++ post)
      = (first :: pieces) ++ [post].
Proof.
  intros Hpost. induction pre as [| c pre IH]; intros skip Hin.
  - destruct skip as [| [| [| [| [| k]]]]]; cbn in Hin;
      try discriminate Hin; try contradiction.
    exists EmptyString, [].
    pose proof (prefix_app "Tags:" post) as E.
    cbn [append] in E |- *. cbn [PySplit.split_from].
    rewrite E. cbn [String.length Nat.pred PySplit.split_from].
    now rewrite (split_without_T post Hpost).
  - cbn [append] in *. destruct skip as [| k].
    + cbn [PySplit.split_from].
      destruct (prefix "Tags:" (String c _)) eqn:E.
      * cbn [prefix] in E. destruct (ascii_dec "T" c); [| discriminate].
        cbn [String.length Nat.pred].
        destruct (IH 4%nat E) as [first [pieces ->]].
        exists EmptyString, (first :: pieces). reflexivity.
      * destruct (IH 0%nat I) as [first [pieces ->]].
        exists (String c first), pieces. reflexivity.
    + cbn [PySplit.split_from]. apply IH.
      destruct k as [| [| [| [| k]]]]; cbn in Hin |- *;
        try exact I; try contradiction;
        match type of Hin with
        | (if ?d then _ else _) = true =>
            destruct d; [exact Hin | discriminate Hin]
        end.
Qed.

Lemma after_last_tags (pre post : string) :
  TextShape.no_char "T" post = true ->
  last (PySplit.split (pre ++ "Tags:" ++ post) "Tags:") EmptyString = post.
Proof.
  intros Hpost. unfold PySplit.split.
  destruct (split_tags_last post Hpost pre 0%nat I) as [first [pieces ->]].
  apply last_last.
Qed.

End GistFacts.

Module GistRoundTrip.

(** *** The tags between the commas *)

Lemma split_comma_none (a : string) :
  TextShape.no_char "," a = true -> PySplit.split_from "," 0 a = [a].
Proof.
  induction a as [| c a IH]; [reflexivity |].
  cbn [TextShape.no_char]. intros H.
  apply andb_true_iff in H as [Hc Ha].
  apply negb_true_iff, Ascii.eqb_neq in Hc.
  cbn [PySplit.split_from prefix].
  destruct (ascii_dec "," c) as [E | _]; [now contradiction Hc |].
  now rewrite (IH Ha).
Qed.

Lemma split_comma_first (a b : string) :
  TextShape.no_char "," a = true ->
  PySplit.split_from "," 0 (a ++ String "," b)
  = a :: PySplit.split_from "," 0 b.
Proof.
  induction a as [| c a IH]; cbn [append TextShape.no_char]; intros H.
  - cbn [PySplit.split_from prefix].
    destruct (ascii_dec "," ","); [| contradiction].
    now destruct b.
  - apply andb_true_iff in H as [Hc Ha].
    apply negb_true_iff, Ascii.eqb_neq in Hc.
    cbn [PySplit.split_from prefix].
    destruct (ascii_dec "," c) as [E | _]; [now contradiction Hc |].
    now rewrite (IH Ha).
Qed.

(** The pieces of the joined tags: the first tag, and every other tag
    after one blank. *)
Lemma split_joined (rest : list string) :
  forall lead tag,
    TextShape.no_char "," lead = true ->
    Forall (fun t => TextShape.no_char "," t = true) (tag :: rest) ->
    PySplit.split_from "," 0 (lead ++ String.concat ", " (tag :: rest))
    = (lead ++ tag)%string :: map (fun t => (" " ++ t)%string) rest.
Proof.
  induction rest as [| next rest IH]; intros lead tag Hlead Hall.
  - cbn [String.concat map]. apply split_comma_none.
    rewrite EditorFacts.no_char_app, Hlead.
    now inversion Hall.
  - rewrite EditorFacts.concat_cons.
    inversion Hall as [| ? ? Htag Hrest]; subst.
    replace (lead ++ tag ++ ", " ++ String.concat ", " (next :: rest))%string
      with ((lead ++ tag)
            ++ String "," (" " ++ String.concat ", " (next :: rest)))%string
      by (now rewrite StoreFacts.append_assoc).
    rewrite split_comma_first
      by (now rewrite EditorFacts.no_char_app, Hlead, Htag).
    now rewrite (IH " " next eq_refl Hrest).
Qed.

(** *** Tags that validation leaves alone *)

Lemma fixed_by_strip (t : string) :
  PyText.strip t = t ->
  PyText.lstrip t = t /\ PyText.rstrip t = t.
Proof.
  intros H. split.
  - rewrite <- H at 1. rewrite PyTextFacts.lstrip_strip. exact H.
  - rewrite <- H at 1. unfold PyText.strip.
    rewrite PyTextFacts.rstrip_idem. exact H.
Qed.

Lemma lstrip_app_fixed (t x : string) :
  PyText.lstrip t = t -> t <> EmptyString ->
  PyText.lstrip (t ++ x) = (t ++ x)%string.
Proof.
  intros H Hne. rewrite EditorFacts.lstrip_app_solid; now rewrite H.
Qed.

Lemma rstrip_app_fixed (a b : string) :
  PyText.rstrip b = b -> b <> EmptyString ->
  PyText.rstrip (a ++ b) = (a ++ b)%string.
Proof.
  intros H Hne. induction a as [| c a IH]; [exact H |].
  cbn [append PyText.rstrip]. rewrite IH.
  destruct (a ++ b)%string eqn:E; [| reflexivity].
  destruct a; [now contradiction Hne | discriminate E].
Qed.

Lemma concat_not_empty (sep : string) (tag : string) (rest : list string) :
  tag <> EmptyString -> String.concat sep (tag :: rest) <> EmptyString.
Proof.
  intros Hne. destruct rest as [| next rest]; [exact Hne |].
  rewrite EditorFacts.concat_cons.
  destruct tag; [now contradiction Hne | discriminate].
Qed.

Lemma concat_rstrip (tags : list string) :
  forall tag,
    Forall (fun t => t <> EmptyString /\ PyText.rstrip t = t)
           (tag :: tags) ->
    PyText.rstrip (String.concat ", " (tag :: tags))
    = String.concat ", " (tag :: tags).
Proof.
  induction tags as [| next rest IH]; intros tag Hall;
    inversion Hall as [| ? ? [Hne Hfix] Hrest]; subst.
  - exact Hfix.
  - rewrite EditorFacts.concat_cons, <- StoreFacts.append_assoc.
    apply rstrip_app_fixed; [now apply IH |].
    apply concat_not_empty. now inversion Hrest as [| ? ? [H _] _].
Qed.

(** The joined tags have no blank at either end. *)
Lemma strip_joined (tag : string) (rest : list string) :
  Forall (fun t => t <> EmptyString /\ PyText.strip t = t) (tag :: rest) ->
  PyText.strip (String.concat ", " (tag :: rest))
  = String.concat ", " (tag :: rest).
Proof.
  intros Hall. unfold PyText.strip.
  assert (Hl : PyText.lstrip (String.concat ", " (tag :: rest))
               = String.concat ", " (tag :: rest)).
  { inversion Hall as [| ? ? [Hne Hfix] _]; subst.
    destruct (fixed_by_strip tag Hfix) as [Hlt _].
    destruct rest as [| next rest]; [exact Hlt |].
    rewrite EditorFacts.concat_cons. now apply lstrip_app_fixed. }
  rewrite Hl. apply concat_rstrip.
  eapply Forall_impl; [| exact Hall].
  intros t [Hne Hfix]. split; [exact Hne |].
  now destruct (fixed_by_strip t Hfix).
Qed.

(** A text in lower case holds no capital T. *)
Lemma lower_char_not_T (c : ascii) : Py.lower_char c <> "T"%char.
Proof.
  destruct c as [b0 b1 b2 b3 b4 b5 b6 b7].
  destruct b0, b1, b2, b3, b4, b5, b6, b7; discriminate.
Qed.

Lemma lower_no_T (t : string) :
  Py.lower t = t -> TextShape.no_char "T" t = true.
Proof.
  induction t as [| c t IH]; [reflexivity |].
  cbn. intros H. injection H as Hc Ht.
  rewrite (IH Ht), andb_true_r. apply negb_true_iff, Ascii.eqb_neq.
  rewrite <- Hc. apply lower_char_not_T.
Qed.

Lemma joined_no_T (tags : list string) :
  Forall (fun t => Py.lower t = t) tags ->
  TextShape.no_char "T" (String.concat ", " tags) = true.
Proof.
  induction 1 as [| tag rest Htag Hrest IH]; [reflexivity |].
  destruct rest as [| next rest]; [now apply lower_no_T |].
  rewrite EditorFacts.concat_cons, !EditorFacts.no_char_app.
  now rewrite (lower_no_T tag Htag), IH.
Qed.

(** Several joined tags hold a comma, the words [no tags] do not. *)
Lemma joined_is_not_no_tags (tags : list string) :
  tags <> ["no tags"] ->
  String.concat ", " tags = "no tags" -> tags = [].
Proof.
  intros Hne E. destruct tags as [| tag [| next rest]]; [reflexivity | |].
  - cbn in E. subst tag. now contradiction Hne.
  - rewrite EditorFacts.concat_cons in E.
    assert (H : TextShape.no_char ","
                  (tag ++ ", " ++ String.concat ", " (next :: rest))
                = true) by (rewrite E; reflexivity).
    rewrite !EditorFacts.no_char_app in H.
    cbn in H. rewrite andb_false_r in H. discriminate H.
Qed.

(** The tags of a description that [create_gist] wrote are the tags of
    the snippet. *)
Lemma description_gives_tags (s : Models.Snippet) :
  Forall (fun t => t <> EmptyString /\ PyText.strip t = t
                   /\ Py.lower t = t) (Models.tags s) ->
  Forall (fun t => TextShape.no_char "," t = true) (Models.tags s) ->
  Models.tags s <> ["no tags"] ->
  GistManager.tags_of_description (Some (GistManager.gist_description s))
  = Models.tags s.
Proof.
  unfold GistManager.tags_of_description, GistManager.gist_description.
  generalize (Models.tags s) as tags. intros tags Hnormal Hcomma Hne.
  set (tags_str := match tags with
                   | [] => "no tags"
                   | _ :: _ => String.concat ", " tags
                   end).
  set (pre := (Models.name s ++ " (" ++ Models.language s ++ ") - ")%string).
  replace (Models.name s ++ " (" ++ Models.language s ++ ") - Tags: "
           ++ tags_str)%string
    with (pre ++ "Tags:" ++ (" " ++ tags_str))%string
    by (subst pre; now rewrite !StoreFacts.append_assoc).
  assert (Hd : PyText.truthy (pre ++ "Tags:" ++ " " ++ tags_str) = true).
  { destruct pre; reflexivity. }
  rewrite Hd, (GistFacts.contains_middle "Tags:" pre (" " ++ tags_str)).
  cbn [andb].
  assert (HT : TextShape.no_char "T" (" " ++ tags_str) = true).
  { cbn. subst tags_str. destruct tags as [| tag rest]; [reflexivity |].
    apply joined_no_T.
    eapply Forall_impl; [| exact Hnormal]. now intros t [_ [_ H]]. }
  rewrite (GistFacts.after_last_tags pre _ HT).
  change (PyText.strip (" " ++ tags_str)) with (PyText.strip tags_str).
  subst tags_str. destruct tags as [| tag rest]; [reflexivity |].
  assert (Hstrip : PyText.strip (String.concat ", " (tag :: rest))
                   = String.concat ", " (tag :: rest)).
  { apply strip_joined. eapply Forall_impl; [| exact Hnormal].
    now intros t [H1 [H2 _]]. }
  rewrite Hstrip.
  assert (Htruthy : PyText.truthy (String.concat ", " (tag :: rest)) = true).
  { unfold PyText.truthy. apply negb_true_iff, String.eqb_neq.
    apply concat_not_empty. now inversion Hnormal as [| ? ? [H _] _]. }
  assert (Hno : (String.concat ", " (tag :: rest) =? "no tags")%string
                = false).
  { apply String.eqb_neq. intros H.
    now apply (joined_is_not_no_tags _ Hne) in H. }
  rewrite Htruthy, Hno. cbn [negb andb].
  unfold PySplit.split.
  change (String.concat ", " (tag :: rest))
    with (EmptyString ++ String.concat ", " (tag :: rest))%string.
  rewrite (split_joined rest EmptyString tag eq_refl Hcomma).
  cbn [append map]. inversion Hnormal as [| ? ? [_ [Htag _]] Hrest]; subst.
  rewrite Htag. f_equal. rewrite map_map.
  clear - Hrest. induction Hrest as [| t ts [_ [Ht _]] _ IH];
    [reflexivity |].
  cbn [map]. rewrite IH. f_equal. exact Ht.
Qed.

Lemma validated_facts (s : Models.Snippet) :
  DbInvariant.validated s ->
  ((1 <=? String.length (Models.name s))
   && (String.length (Models.name s) <=? 255)
   && (1 <=? String.length (Models.content s)))%nat = true
  /\ SnippetModel.validate_tags (Models.tags s) = Models.tags s.
Proof.
  unfold DbInvariant.validated, SnippetModel.init.
  destruct (SnippetModel.validate_execution_mode _); [| discriminate].
  destruct (_ && _); [| discriminate].
  intros H. injection H as H. split; [reflexivity |].
  now apply (f_equal Models.tags) in H.
Qed.

(** A snippet pushed to a Gist and read back from it keeps its name, its
    content and its tags, as long as no tag holds a comma and the tags are
    not the single tag [no tags]. *)
Theorem gist_round_trip (new_id created updated : string)
    (s : Models.Snippet) (gist : GistManager.Gist)
    (file : GistManager.GistFile) (others : list GistManager.GistFile) :
  DbInvariant.validated s ->
  Forall (fun t => TextShape.no_char "," t = true) (Models.tags s) ->
  Models.tags s <> ["no tags"] ->
  GistManager.files gist = file :: others ->
  GistManager.filename file = GistManager.gist_filename s ->
  GistManager.file_content file = Models.content s ->
  GistManager.description gist = Some (GistManager.gist_description s) ->
  exists r,
    GistManager.gist_to_snippet new_id created updated gist
    = SearchEngine.Returns _ r
    /\ Models.name r = Models.name s
    /\ Models.content r = Models.content s
    /\ Models.tags r = Models.tags s
    /\ Models.gist_id r = Some (GistManager.gist_ident gist)
    /\ Models.gist_url r = Some (GistManager.html_url gist).
Proof.
  intros Hvalid Hcomma Hne Hfiles Hname Hcontent Hdesc.
  destruct (validated_facts s Hvalid) as [Hlen Htags].
  assert (Hnormal : Forall (fun t => t <> EmptyString
                                     /\ PyText.strip t = t
                                     /\ Py.lower t = t) (Models.tags s)).
  { rewrite <- Htags.
    now destruct (SnippetModelFacts.validate_tags_normal
                    (Models.tags s)). }
  unfold GistManager.gist_to_snippet.
  rewrite Hfiles, Hname, Hcontent, Hdesc.
  rewrite (GistFacts.filename_gives_name s).
  rewrite (description_gives_tags s Hnormal Hcomma Hne).
  unfold SnippetModel.init.
  cbn [Models.id Models.name Models.content Models.language Models.tags
       Models.execution_mode Models.gist_id Models.gist_url
       Models.created_at Models.updated_at].
  change (SnippetModel.validate_execution_mode "current")
    with (SearchEngine.Returns string "current").
  rewrite Hlen, Htags.
  eexists. split; [reflexivity |]. cbn. repeat split; reflexivity.
Qed.

End GistRoundTrip.

(** ** The properties on concrete inputs *)

Module Witnesses.

Lemma tag_store_unique : DbInvariant.unique_keys Examples.tag_store.
Proof.
  split; repeat constructor; cbn; intuition discriminate.
Defined.

Lemma tag_store_validated :
  Forall DbInvariant.validated Examples.tag_store.
Proof. repeat constructor. Defined.

Lemma init_fixed_point_witness :
  SnippetModel.init Samples.raw_fields
  = SearchEngine.Returns _ Samples.deploy
  /\ SnippetModel.from_db_dict Samples.deploy
     = SearchEngine.Returns _ Samples.deploy.
Proof.
  assert (H : SnippetModel.init Samples.raw_fields
              = SearchEngine.Returns _ Samples.deploy)
    by (vm_compute; reflexivity).
  split; [exact H |].
  exact (SnippetModelFacts.init_fixed_point _ _ H).
Defined.

Lemma lookup_stored_witness :
  snd (DatabaseOps.get_by_name (Some Examples.tag_store) "fetch")
  = SearchEngine.Returns _ (Some Examples.tagged_api)
  /\ snd (DatabaseOps.get_by_id (Some Examples.tag_store) "8")
     = SearchEngine.Returns _ (Some Examples.tagged_api).
Proof.
  apply (DatabaseFacts.lookup_stored Examples.tag_store
           Examples.tagged_api tag_store_unique).
  - right. left. reflexivity.
  - reflexivity.
Defined.

Lemma lookup_missing_witness :
  DatabaseOps.get_by_name (Some Examples.tag_store) "absent"
  = (Some Examples.tag_store, SearchEngine.Returns _ None).
Proof.
  apply (DatabaseFacts.lookup_missing (Some Examples.tag_store) "absent").
  intros row [<- | [<- | [<- | []]]]; discriminate.
Defined.

Lemma create_then_get_witness :
  snd (DatabaseOps.get_by_name
         (fst (DatabaseOps.create (Some Examples.tag_store)
                 Samples.deploy)) "Deploy")
  = SearchEngine.Returns _ (Some Samples.deploy)
  /\ snd (DatabaseOps.get_by_id
            (fst (DatabaseOps.create (Some Examples.tag_store)
                    Samples.deploy)) "11")
     = SearchEngine.Returns _ (Some Samples.deploy).
Proof.
  apply (DatabaseFacts.create_then_get (Some Examples.tag_store)
           Samples.deploy); reflexivity.
Defined.

Lemma create_collision_witness :
  DatabaseOps.create (Some Examples.tag_store) Samples.fetch_again
  = (Some Examples.tag_store,
     SearchEngine.Raises _ "IntegrityError" EmptyString).
Proof.
  apply (DatabaseFacts.create_collision (Some Examples.tag_store)
           Samples.fetch_again Examples.tagged_api).
  - right. left. reflexivity.
  - right. reflexivity.
Defined.

Lemma unique_keys_kept_witness :
  DbInvariant.unique_keys
    (DatabaseOps.init_db
       (fst (DatabaseOps.update (Some Examples.tag_store)
               Samples.fetch_edited "2024-02-01T09:00:00"))).
Proof.
  exact (proj1 (proj2
           (DatabaseFacts.unique_keys_kept (Some Examples.tag_store)
              Samples.fetch_edited "2024-02-01T09:00:00" "8"
              tag_store_unique))).
Defined.

Lemma update_missing_id_witness :
  DatabaseOps.update (Some Examples.tag_store) Samples.deploy
    "2024-02-01T09:00:00"
  = (Some Examples.tag_store,
     SearchEngine.Returns _
       (DatabaseOps.touch Samples.deploy "2024-02-01T09:00:00")).
Proof.
  apply (DatabaseFacts.update_missing_id Examples.tag_store Samples.deploy).
  intros row [<- | [<- | [<- | []]]]; discriminate.
Defined.

Lemma update_then_get_witness :
  snd (DatabaseOps.get_by_id
         (fst (DatabaseOps.update (Some Examples.tag_store)
                 Samples.fetch_edited "2024-02-01T09:00:00")) "8")
  = SearchEngine.Returns _
      (Some (DatabaseOps.set_columns
               (DatabaseOps.touch Samples.fetch_edited
                  "2024-02-01T09:00:00")
               Examples.tagged_api)).
Proof.
  apply (TableFacts.update_then_get Examples.tag_store
           Samples.fetch_edited Examples.tagged_api
           "2024-02-01T09:00:00" tag_store_unique).
  - right. left. reflexivity.
  - reflexivity.
  - intros row [<- | [<- | [<- | []]]] Hid; cbn; try discriminate.
    now contradiction Hid.
  - reflexivity.
Defined.

Lemma update_lists_first_witness :
  exists rest,
    snd (DatabaseOps.list_all
           (fst (DatabaseOps.update (Some Examples.tag_store)
                   Samples.fetch_edited "2024-02-01T09:00:00")))
    = SearchEngine.Returns _
        (DatabaseOps.set_columns
           (DatabaseOps.touch Samples.fetch_edited "2024-02-01T09:00:00")
           Examples.tagged_api :: rest).
Proof.
  apply (TableFacts.update_lists_first Examples.tag_store
           Samples.fetch_edited Examples.tagged_api
           "2024-02-01T09:00:00" tag_store_unique tag_store_validated).
  - right. left. reflexivity.
  - reflexivity.
  - intros row [<- | [<- | [<- | []]]] Hid; cbn;
      try (split; [discriminate | reflexivity]).
    now contradiction Hid.
  - reflexivity.
Defined.

Lemma search_without_filters_witness :
  DatabaseOps.search (Some Examples.tag_store) (Some EmptyString) None
    (Some [])
  = DatabaseOps.list_all (Some Examples.tag_store).
Proof.
  apply (TableFacts.search_without_filters (Some Examples.tag_store));
    reflexivity.
Defined.


Lemma search_language_exact_witness :
  In Examples.docker
     (Database.search Examples.docker_store None (Some "auto") None)
  <-> In Examples.docker Examples.docker_store
      /\ Models.language Examples.docker = "auto".
Proof.
  apply (SelectionFacts.search_language_exact Examples.docker_store "auto"
           Examples.docker).
  discriminate.
Defined.


Lemma search_query_ranked_witness :
  Permutation
    (SearchEngine.search (F := thefuzz) Examples.docker_store
       (Some "docker") None None None)
    (SearchEngine.score_all (F := thefuzz) "docker"
       (Database.search Examples.docker_store None None None))
  /\ Sorted by_score_desc
       (SearchEngine.search (F := thefuzz) Examples.docker_store
          (Some "docker") None None None).
Proof.
  destruct (RankingFacts.search_query_ranked (F := thefuzz)
              Examples.docker_store "docker" None None)
    as [Hperm [Hsorted _]].
  - discriminate.
  - split; [exact Hperm | exact Hsorted].
Defined.

Lemma search_results_sound_witness :
  In Examples.docker
     (Database.search Examples.docker_store None None None)
  /\ 100 = SearchEngine._calculate_score (F := thefuzz) "docker"
             Examples.docker
  /\ 0 < 100.
Proof.
  apply (ResultFacts.search_results_sound (F := thefuzz)
           Examples.docker_store "docker" None None (Some 2)
           (Build_SearchResult Examples.docker 100)).
  - discriminate.
  - vm_compute. left. reflexivity.
Defined.

Lemma score_bounds_witness :
  0 <= SearchEngine._calculate_score (F := thefuzz) "xy" Examples.two_tags
  <= Z.max 100 (70 * Z.of_nat (List.length (Models.tags Examples.two_tags))).
Proof.
  exact (ResultFacts.score_bounds (F := thefuzz) "xy" Examples.two_tags).
Defined.

Lemma search_limit_prefix_witness :
  SearchEngine.search (F := thefuzz) Examples.docker_store
    (Some "docker") None None (Some 2)
  = firstn 2
      (SearchEngine.search (F := thefuzz) Examples.docker_store
         (Some "docker") None None None)
  /\ Z.of_nat
       (List.length
          (SearchEngine.search (F := thefuzz) Examples.docker_store
             (Some "docker") None None (Some 2)))
     <= 2.
Proof.
  apply (ResultFacts.search_limit_prefix (F := thefuzz)
           Examples.docker_store (Some "docker") None None 2).
  reflexivity.
Defined.


Lemma edit_content_shape_witness :
  exists body,
    ("echo hi" ++ PyLines.newline)%string = (body ++ PyLines.newline)%string
    /\ body <> EmptyString
    /\ PyText.strip body = body.
Proof.
  apply (EditorFacts.edit_content_shape Samples.editor_unchanged
           "vim" "  echo hi  " ".sh" None).
  vm_compute. reflexivity.
Defined.


Lemma edit_content_drops_comment_line_witness :
  EditorManager.edit_content Samples.editor_script "vim"
    EmptyString ".sh" (Some "Enter content for snippet 'greet'")
  = SearchEngine.Returns _ (Some ("echo hi" ++ PyLines.newline)%string).
Proof.
  apply (EditorFacts.edit_content_drops_comment_line Samples.editor_script
           "vim" EmptyString ".sh" "Enter content for snippet 'greet'"
           "#!/bin/bash" "echo hi" "echo hi" []).
  - discriminate.
  - reflexivity.
  - reflexivity.
  - reflexivity.
  - reflexivity.
  - reflexivity.
  - reflexivity.
Defined.

Lemma gist_round_trip_witness :
  exists r,
    GistManager.gist_to_snippet "14" "2024-03-01T08:00:00"
      "2024-03-01T08:00:01" Samples.deploy_gist
    = SearchEngine.Returns _ r
    /\ Models.name r = "Deploy"
    /\ Models.content r = "make deploy"
    /\ Models.tags r = ["docker"; "api"]
    /\ Models.gist_id r = Some "abc123"
    /\ Models.gist_url r = Some "https://gist.github.com/abc123".
Proof.
  apply (GistRoundTrip.gist_round_trip "14" "2024-03-01T08:00:00"
           "2024-03-01T08:00:01" Samples.deploy Samples.deploy_gist
           {| GistManager.filename := GistManager.gist_filename
                                        Samples.deploy;
              GistManager.file_content := Models.content Samples.deploy;
              GistManager.file_language := Some "Makefile" |} []).
  - reflexivity.
  - repeat constructor.
  - discriminate.
  - reflexivity.
  - reflexivity.
  - reflexivity.
  - reflexivity.
Defined.

End Witnesses.
